(** * toon_util.py: file conversion and dotted-path field extraction

    A shallow embedding of [lib/toon_util.py] of The Council of Legends:
    [encode_file], [decode_file], [read_toon], [get_field] and [main],
    over an explicit file-system state and Python's exceptions.

    Modelling conventions.
    - A Python [str] is a [string] whose characters are the code points
      0 to 255; a character above them cannot be written.  Among these
      [str.isdigit] accepts the decimal digits 0 to 9 and the
      superscript digits U+00B2, U+00B3 and U+00B9, and [int] converts
      the decimal digits only, up to the interpreter's limit on the
      number of digits; otherwise it raises [ValueError].
    - A path names a file through [file_of]: two spellings of one file,
      or a link and its target, are one file.  The exception that
      [open] raises depends on the disk ([FileNotFoundError],
      [IsADirectoryError], ...); the model has one, [OpenError].
    - A decoded document is a [value]: [None], a scalar, a [list] or a
      [dict].  A [dict] keeps its items in insertion order, as
      [json.dumps] prints them; a Python [dict] has distinct keys.
    - The TOON codec ([toon.encode], [toon.decode]), [json.load] and the
      text of a float are not part of the program: they are parameters
      of the section [ToonUtil]. *)

From Stdlib Require Import ZArith NArith String Ascii List.
From stdpp Require Import base option list strings gmap pretty.

Local Open Scope string_scope.

Set Warnings "-register-all".

(** ** Python strings *)

Definition nl : string := String (ascii_of_nat 10) EmptyString.
Definition dquote : string := String (ascii_of_nat 34) EmptyString.
Definition backslash : string := String (ascii_of_nat 92) EmptyString.

(** [bool(s)] for a string: the empty string is falsy. *)
Definition str_truthy (s : string) : bool :=
  match s with
  | EmptyString => false
  | String _ _ => true
  end.

(** [if x:] for an optional string argument ([None] or a [str]). *)
Definition truthy (o : option string) : bool :=
  match o with
  | None => false
  | Some s => str_truthy s
  end.

(** [s.split('.')]: never the empty list; an empty [s] gives one empty
    segment. *)
Fixpoint split_dot (s : string) : list string :=
  match s with
  | EmptyString => [EmptyString]
  | String c rest =>
      if Ascii.eqb c "."%char then EmptyString :: split_dot rest
      else match split_dot rest with
           | [] => [String c EmptyString]
           | p :: ps => String c p :: ps
           end
  end.

(** Whether a dot occurs in [s]. *)
Fixpoint has_dot (s : string) : bool :=
  match s with
  | EmptyString => false
  | String c rest => Ascii.eqb c "."%char || has_dot rest
  end.

(** A decimal digit, 0 to 9: the digits that [int] reads. *)
Definition is_decimal (c : ascii) : bool :=
  let n := N_of_ascii c in ((48 <=? n) && (n <=? 57))%N.

(** A character that [str.isdigit] accepts: a decimal digit, or one of
    the superscript digits U+00B2, U+00B3 and U+00B9.  No other code
    point below 256 is a digit. *)
Definition is_digit (c : ascii) : bool :=
  let n := N_of_ascii c in
  is_decimal c || (n =? 178)%N || (n =? 179)%N || (n =? 185)%N.

Fixpoint all_digits (s : string) : bool :=
  match s with
  | EmptyString => true
  | String c rest => is_digit c && all_digits rest
  end.

Fixpoint all_decimal (s : string) : bool :=
  match s with
  | EmptyString => true
  | String c rest => is_decimal c && all_decimal rest
  end.

(** [s.isdigit()]: at least one character, and all of them digits. *)
Definition isdigit (s : string) : bool :=
  str_truthy s && all_digits s.

Fixpoint int_from (acc : N) (s : string) : N :=
  match s with
  | EmptyString => acc
  | String c rest => int_from (acc * 10 + (N_of_ascii c - 48)) rest
  end.

(** The number that a string of decimal digits writes (leading zeros
    allowed). *)
Definition decimal_value (s : string) : N := int_from 0 s.

(** [c * n]: the character [c], [n] times. *)
Fixpoint copies (n : nat) (c : ascii) : string :=
  match n with
  | O => EmptyString
  | S n' => String c (copies n' c)
  end.

(** The limit on the digits of [int] in an interpreter that has one and
    is left as it is. *)
Definition default_max_str_digits : nat := 4300.

(** The superscript two, U+00B2: a digit for [str.isdigit] that [int]
    does not read. *)
Definition superscript_two : string := String (ascii_of_nat 178) EmptyString.

(** A path without the [./] in front of it. *)
Fixpoint strip_dot_slash (path : string) : string :=
  match path with
  | String "."%char (String "/"%char rest) => strip_dot_slash rest
  | _ => path
  end.

(** ** Exceptions and results *)

(** [OpenError path] stands for whatever [open], [read] or [write]
    raises on [path]: [FileNotFoundError], [IsADirectoryError],
    [NotADirectoryError], [PermissionError] and the like, as the disk
    has it. *)
Inductive exn : Type :=
| OpenError (path : string)
| IndexError
| ValueError
| JSONDecodeError (msg : string)
| ToonError (msg : string).

Inductive result (A : Type) : Type :=
| Ok (a : A)
| Raise (e : exn).
Arguments Ok {A} a.
Arguments Raise {A} e.

(** ** The file system and the monad of the file operations *)

(** [file_of] gives the file that a path names, or would create: two
    paths with the same [file_of] are one file, and no operation of the
    program changes which file a path names.  [files] holds the text of
    each readable file; [readonly] holds the paths that cannot be opened
    for writing. *)
Record FS : Type := mkFS {
  file_of : string -> string;
  files : gmap string string;
  readonly : gset string
}.

Definition M (A : Type) : Type := FS -> result A * FS.

Definition ret {A : Type} (a : A) : M A := fun fs => (Ok a, fs).

Definition raise {A : Type} (e : exn) : M A := fun fs => (Raise e, fs).

Definition bind {A B : Type} (m : M A) (k : A -> M B) : M B :=
  fun fs =>
    match m fs with
    | (Ok a, fs') => k a fs'
    | (Raise e, fs') => (Raise e, fs')
    end.

Definition lift {A : Type} (r : result A) : M A := fun fs => (r, fs).

Declare Scope py_scope.
Delimit Scope py_scope with py.
Notation "x <- m ;; k" := (bind m (fun x => k))
  (at level 100, m at next level, right associativity) : py_scope.
Notation "m ;;; k" := (bind m (fun _ => k))
  (at level 100, right associativity) : py_scope.

(** [with open(path, 'r') as f: f.read()] *)
Definition read_text (path : string) : M string :=
  fun fs =>
    match files fs !! file_of fs path with
    | Some text => (Ok text, fs)
    | None => (Raise (OpenError path), fs)
    end.

(** Whether [open(path, 'w')] succeeds.  The empty path names no file:
    opening it fails. *)
Definition writable (fs : FS) (path : string) : bool :=
  str_truthy path && bool_decide (path ∉ readonly fs).

(** [with open(path, 'w') as f: f.write(text)] creates or overwrites
    the file that [path] names. *)
Definition write_text (path text : string) : M unit :=
  fun fs =>
    if writable fs path
    then (Ok tt,
          mkFS (file_of fs) (<[file_of fs path := text]> (files fs)) (readonly fs))
    else (Raise (OpenError path), fs).

(** ** Documents *)

Section ToonUtil.

(** The most digits that [int] converts,
    [sys.get_int_max_str_digits()]: 4300 unless set otherwise, and 0
    for no limit, which is also how an interpreter without the limit
    behaves. *)
Variable int_max_str_digits : nat.

(** [int(s)] for a string of digits, the only strings the program
    gives it (a sign, blanks and underscores, which [int] also reads,
    are not digits): [ValueError] on the empty string, on a digit that
    is not decimal, and on more digits than the limit allows. *)
Definition int (s : string) : result N :=
  if str_truthy s
     && all_decimal s
     && (Nat.eqb int_max_str_digits 0
         || Nat.leb (String.length s) int_max_str_digits)
  then Ok (decimal_value s)
  else Raise ValueError.

(** Python floats and their two renderings: [repr] (which [str] uses)
    and the token [json.dumps] writes. *)
Context {pyfloat : Type}.
Variable float_repr : pyfloat -> string.
Variable float_json : pyfloat -> string.

Inductive scalar : Type :=
| SBool (b : bool)
| SInt (n : Z)
| SFloat (x : pyfloat)
| SStr (s : string).

Inductive value : Type :=
| VNone
| VScalar (a : scalar)
| VList (l : list value)
| VDict (d : list (string * value)).

(** The external conversions, each of which may raise. *)
Variable toon_encode : value -> result string.
Variable toon_decode : string -> result value.
Variable json_load : string -> result value.

(** [isinstance(value, (dict, list))] *)
Definition is_container (v : value) : bool :=
  match v with
  | VList _ | VDict _ => true
  | _ => false
  end.

(** The item stored under [key], if any. *)
Fixpoint dict_lookup (d : list (string * value)) (key : string) : option value :=
  match d with
  | [] => None
  | (k, v) :: rest => if String.eqb k key then Some v else dict_lookup rest key
  end.

(** [d.get(key)]: [None] when the key is missing. *)
Definition dict_get (d : list (string * value)) (key : string) : value :=
  default VNone (dict_lookup d key).

(** [str(x)] of a scalar other than [None]. *)
Definition str (a : scalar) : string :=
  match a with
  | SBool true => "True"
  | SBool false => "False"
  | SInt n => pretty n
  | SFloat x => float_repr x
  | SStr s => s
  end.

(** ** [json.dumps] *)

Definition hex_digit (n : N) : ascii :=
  default "0"%char (String.get (N.to_nat n) "0123456789abcdef").

(** One character of a JSON string under [ensure_ascii]: the short
    escapes, printable ASCII as it is, and [\u00xx] for the rest. *)
Definition escape_char (c : ascii) : string :=
  let n := N_of_ascii c in
  if (n =? 34)%N then backslash +:+ dquote
  else if (n =? 92)%N then backslash +:+ backslash
  else if (n =? 8)%N then backslash +:+ "b"
  else if (n =? 12)%N then backslash +:+ "f"
  else if (n =? 10)%N then backslash +:+ "n"
  else if (n =? 13)%N then backslash +:+ "r"
  else if (n =? 9)%N then backslash +:+ "t"
  else if ((32 <=? n) && (n <=? 126))%N then String c EmptyString
  else backslash +:+ "u00"
         +:+ String (hex_digit (n / 16)) (String (hex_digit (n mod 16)) EmptyString).

Fixpoint escape (s : string) : string :=
  match s with
  | EmptyString => EmptyString
  | String c rest => escape_char c +:+ escape rest
  end.

Definition dumps_str (s : string) : string := dquote +:+ escape s +:+ dquote.

Definition dumps_scalar (a : scalar) : string :=
  match a with
  | SBool true => "true"
  | SBool false => "false"
  | SInt n => pretty n
  | SFloat x => float_json x
  | SStr s => dumps_str s
  end.

Fixpoint spaces (n : nat) : string :=
  match n with
  | O => EmptyString
  | S n' => String " "%char (spaces n')
  end.

(** The line break and indentation before an item at nesting [level];
    nothing when [indent] is [None]. *)
Definition newline_indent (indent : option nat) (level : nat) : string :=
  match indent with
  | None => EmptyString
  | Some w => nl +:+ spaces (w * level)
  end.

(** The text between two items: [", "] by default, a comma and a line
    break under [indent]. *)
Definition item_separator (indent : option nat) (level : nat) : string :=
  match indent with
  | None => ", "
  | Some _ => "," +:+ newline_indent indent level
  end.

Fixpoint dumps_at (indent : option nat) (level : nat) (v : value) : string :=
  match v with
  | VNone => "null"
  | VScalar a => dumps_scalar a
  | VList l =>
      match l with
      | [] => "[]"
      | _ =>
          "[" +:+ newline_indent indent (S level)
          +:+ String.concat (item_separator indent (S level))
                (List.map (dumps_at indent (S level)) l)
          +:+ newline_indent indent level +:+ "]"
      end
  | VDict d =>
      match d with
      | [] => "{}"
      | _ =>
          "{" +:+ newline_indent indent (S level)
          +:+ String.concat (item_separator indent (S level))
                (List.map (fun kv =>
                             match kv with
                             | (k, x) => dumps_str k +:+ ": " +:+ dumps_at indent (S level) x
                             end) d)
          +:+ newline_indent indent level +:+ "}"
      end
  end.

(** [json.dumps(v)] and [json.dumps(v, indent=w)]. *)
Definition json_dumps (indent : option nat) (v : value) : string :=
  dumps_at indent 0 v.

(** ** The program *)

(** [encode_file(json_path, output_path=None)] *)
Definition encode_file (json_path : string) (output_path : option string) : M string :=
  (text <- read_text json_path ;;
   data <- lift (json_load text) ;;
   toon_str <- lift (toon_encode data) ;;
   if truthy output_path then
     let out := default EmptyString output_path in
     write_text out toon_str ;;;
     ret ("Wrote " +:+ out)
   else
     ret toon_str)%py.

(** [decode_file(toon_path, output_path=None)] *)
Definition decode_file (toon_path : string) (output_path : option string) : M string :=
  (toon_str <- read_text toon_path ;;
   data <- lift (toon_decode toon_str) ;;
   let json_str := json_dumps (Some 2) data in
   if truthy output_path then
     let out := default EmptyString output_path in
     write_text out json_str ;;;
     ret ("Wrote " +:+ out)
   else
     ret json_str)%py.

(** The loop [for part in parts] of [read_toon], started on [cur]: a
    [dict] is asked for the key, a [list] is indexed when the part is
    all digits ([int] may raise, and so does an index out of range),
    anything else ends the loop with [None]. *)
Fixpoint walk (cur : value) (parts : list string) : result value :=
  match parts with
  | [] => Ok cur
  | part :: rest =>
      match cur with
      | VDict d => walk (dict_get d part) rest
      | VList l =>
          if isdigit part then
            match int part with
            | Ok n =>
                match l !! N.to_nat n with
                | Some x => walk x rest
                | None => Raise IndexError
                end
            | Raise e => Raise e
            end
          else Ok VNone
      | _ => Ok VNone
      end
  end.

(** [read_toon(toon_path, field=None)] *)
Definition read_toon (toon_path : string) (field : option string) : M string :=
  (toon_str <- read_text toon_path ;;
   data <- lift (toon_decode toon_str) ;;
   if truthy field then
     let parts := split_dot (default EmptyString field) in
     v <- lift (walk data parts) ;;
     match v with
     | VList _ | VDict _ => ret (json_dumps None v)
     | VScalar a => ret (str a)
     | VNone => ret EmptyString
     end
   else
     ret (json_dumps (Some 2) data))%py.

(** [get_field(toon_path, field)] *)
Definition get_field (toon_path : string) (field : string) : M string :=
  read_toon toon_path (Some field).

(** ** The command line *)

(** The docstring of the module, which [main] prints as usage text. *)
Definition module_doc : string :=
  nl +:+ "TOON utility for The Council of Legends"
  +:+ nl +:+ "Provides encode/decode between JSON and TOON formats"
  +:+ nl
  +:+ nl +:+ "Usage:"
  +:+ nl +:+ "  ./lib/toon_util.py encode <json_file> [output_file]  - Convert JSON to TOON"
  +:+ nl +:+ "  ./lib/toon_util.py decode <toon_file> [output_file]  - Convert TOON to JSON"
  +:+ nl +:+ "  ./lib/toon_util.py read <toon_file> [field]          - Read TOON file, optionally extract field"
  +:+ nl +:+ "  ./lib/toon_util.py get <toon_file> <field>           - Get specific field value (for bash scripts)"
  +:+ nl.

Definition get_usage : string := "Usage: toon_util.py get <toon_file> <field>".

(** How a run of [main] ends: it returns, it calls [sys.exit], or an
    exception leaves it uncaught. *)
Inductive termination : Type :=
| Finished
| SystemExit (code : Z)
| Uncaught (e : exn).

(** The exit status of the process: an uncaught exception gives 1. *)
Definition exit_status (t : termination) : Z :=
  match t with
  | Finished => 0
  | SystemExit code => code
  | Uncaught _ => 1
  end.

(** What a run leaves behind: the arguments of its [print] calls on
    each stream, in order (the traceback of an uncaught exception is
    not among them), how it ended, and the file system. *)
Record outcome : Type := mkOutcome {
  stdout : list string;
  stderr : list string;
  status : termination;
  final : FS
}.

(** [print(f(...))]: the call runs first; only a returned string is
    printed. *)
Definition print_call (m : M string) (fs : FS) : outcome :=
  match m fs with
  | (Ok s, fs') => mkOutcome [s] [] Finished fs'
  | (Raise e, fs') => mkOutcome [] [] (Uncaught e) fs'
  end.

(** [main()], with [sys.argv] as [argv].  The first pattern is
    [len(sys.argv) >= 3]; [head rest] is
    [sys.argv[3] if len(sys.argv) > 3 else None]. *)
Definition main (argv : list string) (fs : FS) : outcome :=
  match argv with
  | _ :: command :: path :: rest =>
      if String.eqb command "encode" then
        print_call (encode_file path (head rest)) fs
      else if String.eqb command "decode" then
        print_call (decode_file path (head rest)) fs
      else if String.eqb command "read" then
        print_call (read_toon path (head rest)) fs
      else if String.eqb command "get" then
        match rest with
        | [] => mkOutcome [] [get_usage] (SystemExit 1) fs
        | field :: _ => print_call (get_field path field) fs
        end
      else
        mkOutcome [module_doc] ["Unknown command: " +:+ command] (SystemExit 1) fs
  | _ => mkOutcome [module_doc] [] (SystemExit 1) fs
  end.

(** ** Paths through a document *)

(** [reaches v parts v' parts']: following the leading segments of
    [parts] from [v], each one a key present in a mapping or an
    all-digits segment that [int] converts to an index inside a
    sequence, arrives at [v'] with [parts'] still to go. *)
Inductive reaches : value -> list string -> value -> list string -> Prop :=
| reaches_here v parts :
    reaches v parts v parts
| reaches_key d k rest x v' parts' :
    dict_lookup d k = Some x ->
    reaches x rest v' parts' ->
    reaches (VDict d) (k :: rest) v' parts'
| reaches_index l k n rest x v' parts' :
    isdigit k = true ->
    int k = Ok n ->
    l !! N.to_nat n = Some x ->
    reaches x rest v' parts' ->
    reaches (VList l) (k :: rest) v' parts'.

(** The document [doc] contains the path [parts], which leads to [v]. *)
Definition contains (doc : value) (parts : list string) (v : value) : Prop :=
  reaches doc parts v [].

(** The segment [k] cannot be followed from [v]: it is missing from the
    mapping, or [v] is a scalar, or [v] is a sequence and [k] is not all
    digits. *)
Definition blocked (v : value) (k : string) : Prop :=
  match v with
  | VDict d => dict_lookup d k = None
  | VList l => isdigit k = false
  | VNone | VScalar _ => True
  end.

(** The traversal of [parts] from [doc] comes to a segment that cannot
    be followed. *)
Definition dead_end (doc : value) (parts : list string) : Prop :=
  exists v k rest, reaches doc parts v (k :: rest) /\ blocked v k.

(** The traversal of [parts] from [doc] comes to a sequence with an
    all-digits segment that [int] converts to a number that is no index
    of it. *)
Definition out_of_range (doc : value) (parts : list string) : Prop :=
  exists l k n rest,
    reaches doc parts (VList l) (k :: rest)
    /\ isdigit k = true /\ int k = Ok n /\ (N.of_nat (length l) <= n)%N.

(** The traversal of [parts] from [doc] comes to a sequence with an
    all-digits segment that [int] does not convert. *)
Definition bad_index (doc : value) (parts : list string) : Prop :=
  exists l k rest,
    reaches doc parts (VList l) (k :: rest)
    /\ isdigit k = true /\ int k = Raise ValueError.

(** ** Sample documents and a stand-in codec given by tables *)

Abbreviation VStr s := (VScalar (SStr s)).
Abbreviation VInt n := (VScalar (SInt n)).

Definition doc_style : value := VDict [("style", VDict [("tone", VStr "epic")])].
Definition doc_items : value := VDict [("items", VList [VStr "x"; VStr "y"])].
Definition doc_a1 : value := VDict [("a", VInt 1)].
Definition doc_abc : value := VDict [("a", VDict [("b", VInt 1); ("c", VInt 2)])].
Definition doc_empty_key : value := VDict [(EmptyString, VStr "x")].
Definition doc_empty_key_dict : value := VDict [(EmptyString, VDict [("b", VInt 1)])].
Definition doc_empty_key_null : value := VDict [(EmptyString, VNone)].
Definition doc_null : value := VDict [("a", VNone)].

(** A decoder that knows the texts of [tbl] and rejects all others. *)
Fixpoint table_decode (tbl : list (string * value)) (err : exn) (text : string)
  : result value :=
  match tbl with
  | [] => Raise err
  | (t, v) :: rest => if String.eqb t text then Ok v else table_decode rest err text
  end.

(** An encoder that knows the documents of [tbl], compared by their
    JSON text, and rejects all others. *)
Fixpoint table_encode (tbl : list (string * value)) (err : exn) (v : value)
  : result string :=
  match tbl with
  | [] => Raise err
  | (t, x) :: rest =>
      if String.eqb (json_dumps None x) (json_dumps None v) then Ok t
      else table_encode rest err v
  end.

(** The texts of the sample files. *)
Definition text_style : string := "style:" +:+ nl +:+ "  tone: epic".
Definition text_items : string := "items[2]: x,y".
Definition text_a1 : string := "a: 1".
Definition text_abc : string := "a:" +:+ nl +:+ "  b: 1" +:+ nl +:+ "  c: 2".
Definition text_empty_key : string := dquote +:+ dquote +:+ ": x".
Definition text_empty_key_dict : string := dquote +:+ dquote +:+ ":" +:+ nl +:+ "  b: 1".
Definition text_empty_key_null : string := dquote +:+ dquote +:+ ": null".
Definition text_null : string := "a: null".
Definition text_a1_json : string := "{" +:+ dquote +:+ "a" +:+ dquote +:+ ": 1}".

Definition toon_table : list (string * value) :=
  [ (text_style, doc_style);
    (text_items, doc_items);
    (text_a1, doc_a1);
    (text_abc, doc_abc);
    (text_empty_key, doc_empty_key);
    (text_empty_key_dict, doc_empty_key_dict);
    (text_empty_key_null, doc_empty_key_null);
    (text_null, doc_null) ].

Definition json_table : list (string * value) :=
  [ (text_a1_json, doc_a1) ].

Definition sample_decode : string -> result value :=
  table_decode toon_table (ToonError "unknown text").

Definition sample_encode : value -> result string :=
  table_encode toon_table (ToonError "unknown document").

Definition sample_load : string -> result value :=
  table_decode json_table (JSONDecodeError "unknown text").

(** A file system holding one file per sample text, and one path that
    cannot be written. *)
Definition sample_fs : FS :=
  mkFS strip_dot_slash
       (list_to_map
          [ ("style.toon", text_style);
            ("items.toon", text_items);
            ("a1.toon", text_a1);
            ("abc.toon", text_abc);
            ("k.toon", text_empty_key);
            ("kd.toon", text_empty_key_dict);
            ("kn.toon", text_empty_key_null);
            ("null.toon", text_null);
            ("a1.json", text_a1_json) ])
       {[ "locked.toon" ]}.

(** More sample files: one whose text the codec rejects, one with the
    inner mapping of [doc_abc], one whose only key has a dot in it, one
    with null in a sequence. *)
Definition text_bad : string := "]] not a document [[".
Definition text_bc : string := "b: 1" +:+ nl +:+ "c: 2".
Definition text_items_null : string := "items[2]: null,y".
Definition text_dotted_key : string := dquote +:+ "a.b" +:+ dquote +:+ ": 1".

Definition doc_bc : value := VDict [("b", VInt 1); ("c", VInt 2)].
Definition doc_items_null : value := VDict [("items", VList [VNone; VStr "y"])].
Definition doc_dotted_key : value := VDict [("a.b", VInt 1)].

Definition sample_decode_more : string -> result value :=
  table_decode ((text_bc, doc_bc) :: (text_dotted_key, doc_dotted_key)
                :: (text_items_null, doc_items_null) :: toon_table)
    (ToonError "unknown text").

Definition sample_fs_more : FS :=
  mkFS (file_of sample_fs)
       (<["bad.toon" := text_bad]>
          (<["bc.toon" := text_bc]>
             (<["dotted.toon" := text_dotted_key]>
                (<["inull.toon" := text_items_null]> (files sample_fs)))))
       (readonly sample_fs).

Definition field_nines : string := "items." +:+ copies 4301 "9"%char.

(** ** Facts about the traversal *)

(** A field always has a first segment. *)
Lemma split_dot_not_nil (s : string) : split_dot s <> [].
Proof.
  destruct s as [ | c rest ]; simpl; [discriminate | ].
  destruct (Ascii.eqb c "."%char); [discriminate | ].
  destruct (split_dot rest); discriminate.
Qed.

(** No segment of a field has a dot in it. *)
Lemma split_dot_no_dot (s : string) :
  Forall (fun part => has_dot part = false) (split_dot s).
Proof.
  induction s as [ | c rest IH ]; simpl.
  - constructor; [reflexivity | constructor].
  - destruct (Ascii.eqb c "."%char) eqn:Hc.
    + constructor; [reflexivity | exact IH].
    + destruct (split_dot rest) as [ | p ps ].
      * constructor; [simpl; rewrite Hc; reflexivity | constructor].
      * inversion IH as [ | ? ? Hp Hps ]; subst.
        constructor; [simpl; rewrite Hc; exact Hp | exact Hps].
Qed.

(** Joining the segments of a field with dots gives the field back. *)
Lemma split_dot_concat (s : string) : String.concat "." (split_dot s) = s.
Proof.
  induction s as [ | c rest IH ]; [reflexivity | ].
  pose proof (split_dot_not_nil rest) as Hnil.
  simpl. destruct (Ascii.eqb_spec c "."%char) as [ -> | Hc ].
  - destruct (split_dot rest) as [ | p ps ]; [congruence | ].
    change (String.concat "." (EmptyString :: p :: ps))
      with (String "."%char (String.concat "." (p :: ps))).
    rewrite IH. reflexivity.
  - destruct (split_dot rest) as [ | p ps ]; [congruence | ].
    destruct ps as [ | q qs ].
    + simpl in *. rewrite IH. reflexivity.
    + change (String.concat "." (String c p :: q :: qs))
        with (String c (String.concat "." (p :: q :: qs))).
      rewrite IH. reflexivity.
Qed.

Lemma str_truthy_nonempty (s : string) :
  s <> EmptyString -> str_truthy s = true.
Proof. destruct s; [congruence | reflexivity]. Qed.

Lemma walk_None (parts : list string) : walk VNone parts = Ok VNone.
Proof. destruct parts; reflexivity. Qed.

Lemma dict_get_lookup d k x : dict_lookup d k = Some x -> dict_get d k = x.
Proof. unfold dict_get. intros ->. reflexivity. Qed.


(** The loop follows every step of a path. *)
(** [int] raises nothing but [ValueError]. *)
Lemma int_raises k e : int k = Raise e -> e = ValueError.
Proof.
  unfold int.
  destruct (str_truthy k
            && all_decimal k
            && (Nat.eqb int_max_str_digits 0
                || Nat.leb (String.length k) int_max_str_digits));
    intros H; [discriminate H | inversion H; reflexivity].
Qed.

(** The loop follows every step of a path. *)
Lemma walk_reaches v parts v' parts' :
  reaches v parts v' parts' -> walk v parts = walk v' parts'.
Proof.
  induction 1 as [ | d k rest x v' parts' Hk _ IH
                   | l k n rest x v' parts' Hd Hn Hx _ IH ].
  - reflexivity.
  - simpl. rewrite (dict_get_lookup _ _ _ Hk). exact IH.
  - simpl. rewrite Hd, Hn, Hx. exact IH.
Qed.

Lemma walk_contains doc parts v : contains doc parts v -> walk doc parts = Ok v.
Proof. intros H. apply walk_reaches in H. exact H. Qed.

Lemma walk_blocked v k rest : blocked v k -> walk v (k :: rest) = Ok VNone.
Proof.
  destruct v as [ | a | l | d ]; simpl; intros H.
  - reflexivity.
  - reflexivity.
  - rewrite H. reflexivity.
  - unfold dict_get. rewrite H. simpl. apply walk_None.
Qed.

Lemma walk_dead_end doc parts : dead_end doc parts -> walk doc parts = Ok VNone.
Proof.
  intros (v & k & rest & Hr & Hb).
  rewrite (walk_reaches _ _ _ _ Hr). apply walk_blocked, Hb.
Qed.

Lemma walk_out_of_range doc parts :
  out_of_range doc parts -> walk doc parts = Raise IndexError.
Proof.
  intros (l & k & n & rest & Hr & Hd & Hn & Hlen).
  rewrite (walk_reaches _ _ _ _ Hr). simpl. rewrite Hd, Hn.
  rewrite (proj2 (lookup_ge_None l (N.to_nat n))); [reflexivity | lia].
Qed.

Lemma walk_bad_index doc parts :
  bad_index doc parts -> walk doc parts = Raise ValueError.
Proof.
  intros (l & k & rest & Hr & Hd & Hn).
  rewrite (walk_reaches _ _ _ _ Hr). simpl. rewrite Hd, Hn. reflexivity.
Qed.

(** Conversely, a loop that ends on something other than [None] has
    followed a path of the document. *)
Lemma walk_contains_inv parts : forall doc v,
  walk doc parts = Ok v -> v <> VNone -> contains doc parts v.
Proof.
  induction parts as [ | part rest IH ]; intros doc v Hw Hv; simpl in Hw.
  - inversion Hw; subst. apply reaches_here.
  - destruct doc as [ | a | l | d ]; try (inversion Hw; congruence).
    + destruct (isdigit part) eqn:Hd; [ | inversion Hw; congruence ].
      destruct (int part) as [ n | e ] eqn:Hn; [ | discriminate Hw ].
      destruct (l !! N.to_nat n) as [ x | ] eqn:Hx; [ | discriminate Hw ].
      eapply reaches_index; eauto. apply IH; assumption.
    + unfold dict_get in Hw.
      destruct (dict_lookup d part) as [ x | ] eqn:Hk; simpl in Hw.
      * eapply reaches_key; eauto. apply IH; assumption.
      * rewrite walk_None in Hw. inversion Hw; congruence.
Qed.

(** Every traversal follows a whole path, or comes to a segment it
    cannot follow, or runs out of range, or comes to an index that
    [int] does not convert. *)
Lemma traversal_cases parts : forall doc,
  (exists v, contains doc parts v) \/ dead_end doc parts
  \/ out_of_range doc parts \/ bad_index doc parts.
Proof.
  assert (Step : forall doc part rest x,
             (forall v' parts', reaches x rest v' parts' ->
                                reaches doc (part :: rest) v' parts') ->
             ((exists v, contains x rest v) \/ dead_end x rest
              \/ out_of_range x rest \/ bad_index x rest) ->
             (exists v, contains doc (part :: rest) v)
             \/ dead_end doc (part :: rest)
             \/ out_of_range doc (part :: rest)
             \/ bad_index doc (part :: rest)).
  { intros doc part rest x Hstep
           [ (v & Hc) | [ (v & k & r & Hr & Hb)
                        | [ (l & k & n & r & Hr & Hk) | (l & k & r & Hr & Hk) ] ] ].
    - left. exists v. apply Hstep, Hc.
    - right; left. exists v, k, r. split; [apply Hstep, Hr | exact Hb].
    - right; right; left. exists l, k, n, r. split; [apply Hstep, Hr | exact Hk].
    - right; right; right. exists l, k, r. split; [apply Hstep, Hr | exact Hk]. }
  induction parts as [ | part rest IH ]; intros doc.
  - left. exists doc. apply reaches_here.
  - destruct doc as [ | a | l | d ].
    + right; left. exists VNone, part, rest. split; [apply reaches_here | exact I].
    + right; left. exists (VScalar a), part, rest.
      split; [apply reaches_here | exact I].
    + destruct (isdigit part) eqn:Hd.
      * destruct (int part) as [ n | e ] eqn:Hn.
        -- destruct (l !! N.to_nat n) as [ x | ] eqn:Hx.
           ++ apply (Step _ _ _ x); [ | apply IH ].
              intros v' parts' Hr. eapply reaches_index; eauto.
           ++ right; right; left. exists l, part, n, rest.
              split; [apply reaches_here | split; [exact Hd | split; [exact Hn | ] ] ].
              apply lookup_ge_None in Hx. lia.
        -- right; right; right. exists l, part, rest.
           split; [apply reaches_here | split; [exact Hd | ] ].
           rewrite Hn. rewrite (int_raises _ _ Hn). reflexivity.
      * right; left. exists (VList l), part, rest.
        split; [apply reaches_here | exact Hd].
    + destruct (dict_lookup d part) as [ x | ] eqn:Hk.
      * apply (Step _ _ _ x); [ | apply IH ].
        intros v' parts' Hr. eapply reaches_key; eauto.
      * right; left. exists (VDict d), part, rest.
        split; [apply reaches_here | exact Hk].
Qed.

(** A traversal that comes to an all-digits segment has a digit in its
    field, which is then not the empty string. *)
Lemma reaches_index_truthy doc field l k rest :
  reaches doc (split_dot field) (VList l) (k :: rest) ->
  isdigit k = true ->
  str_truthy field = true.
Proof.
  destruct field as [ | c field ]; [ | reflexivity ].
  intros Hr Hd. simpl in Hr.
  inversion Hr; subst.
  - discriminate Hd.
  - match goal with H : reaches _ [] _ (_ :: _) |- _ => inversion H end.
  - match goal with H : isdigit EmptyString = true |- _ => discriminate H end.
Qed.

Lemma out_of_range_truthy doc field :
  out_of_range doc (split_dot field) -> str_truthy field = true.
Proof.
  intros (l & k & n & rest & Hr & Hd & _).
  exact (reaches_index_truthy _ _ _ _ _ Hr Hd).
Qed.

Lemma bad_index_truthy doc field :
  bad_index doc (split_dot field) -> str_truthy field = true.
Proof.
  intros (l & k & rest & Hr & Hd & _).
  exact (reaches_index_truthy _ _ _ _ _ Hr Hd).
Qed.

(** What [read_toon] does with a field that is given, once the file is
    read and decoded. *)
Lemma read_toon_field fs toon_path toon_str data field :
  files fs !! file_of fs toon_path = Some toon_str ->
  toon_decode toon_str = Ok data ->
  str_truthy field = true ->
  read_toon toon_path (Some field) fs =
  match walk data (split_dot field) with
  | Ok (VList l) => (Ok (json_dumps None (VList l)), fs)
  | Ok (VDict d) => (Ok (json_dumps None (VDict d)), fs)
  | Ok (VScalar a) => (Ok (str a), fs)
  | Ok VNone => (Ok EmptyString, fs)
  | Raise e => (Raise e, fs)
  end.
Proof.
  intros Hf Hd Ht. unfold read_toon, bind, read_text, lift.
  rewrite Hf, Hd. simpl. rewrite Ht. simpl.
  destruct (walk data (split_dot field)) as [ [ | a | l | d ] | e ]; reflexivity.
Qed.

(** What [read_toon] does without a field, or with the empty one. *)
Lemma read_toon_whole fs toon_path toon_str data field :
  files fs !! file_of fs toon_path = Some toon_str ->
  toon_decode toon_str = Ok data ->
  truthy field = false ->
  read_toon toon_path field fs = (Ok (json_dumps (Some 2) data), fs).
Proof.
  intros Hf Hd Ht. unfold read_toon, bind, read_text, lift.
  rewrite Hf, Hd. simpl. rewrite Ht. reflexivity.
Qed.


(** ** The claims about [read_toon] and [get_field] *)


(** C2.  For every TOON file and non-empty field, if the traversal, as
    the loop runs it, comes to a segment that is missing from the
    current mapping, or to a scalar, or to a sequence with a segment
    that is not all digits, then [read_toon] raises nothing and returns
    the empty string; so [a.b] gives the empty string on the document
    with 1 under a. *)
Theorem read_toon_dead_end_empty :
  forall fs toon_path toon_str data,
    files fs !! file_of fs toon_path = Some toon_str ->
    toon_decode toon_str = Ok data ->
    (forall field,
        field <> EmptyString ->
        dead_end data (split_dot field) ->
        read_toon toon_path (Some field) fs = (Ok EmptyString, fs))
    /\ (data = doc_a1 ->
        read_toon toon_path (Some "a.b") fs = (Ok EmptyString, fs)).
Proof.
  intros fs toon_path toon_str data Hf Hd.
  assert (General : forall field,
             field <> EmptyString ->
             dead_end data (split_dot field) ->
             read_toon toon_path (Some field) fs = (Ok EmptyString, fs)).
  { intros field Hne Hdead.
    rewrite (read_toon_field _ _ _ _ _ Hf Hd (str_truthy_nonempty _ Hne)).
    rewrite (walk_dead_end _ _ Hdead). reflexivity. }
  split; [exact General | intros ->].
  apply General; [discriminate | ].
  exists (VScalar (SInt 1)), "b", []. split; [ | exact I].
  eapply reaches_key; [reflexivity | ]. apply reaches_here.
Qed.

(** C3 (amended).  For every TOON file and field whose traversal comes
    to a sequence with an all-digits segment that [int] converts to a
    number at least the length of the sequence, [read_toon], and with
    it [get_field], raises [IndexError] to the caller and returns no
    string.  When [int] does not convert the segment, [ValueError]
    reaches the caller in its place. *)
Theorem read_toon_index_out_of_range :
  forall fs toon_path toon_str data field,
    files fs !! file_of fs toon_path = Some toon_str ->
    toon_decode toon_str = Ok data ->
    (out_of_range data (split_dot field) ->
     read_toon toon_path (Some field) fs = (Raise IndexError, fs)
     /\ get_field toon_path field fs = (Raise IndexError, fs))
    /\ (bad_index data (split_dot field) ->
        read_toon toon_path (Some field) fs = (Raise ValueError, fs)
        /\ get_field toon_path field fs = (Raise ValueError, fs)).
Proof.
  intros fs toon_path toon_str data field Hf Hd. split.
  - intros Hout.
    assert (Hr : read_toon toon_path (Some field) fs = (Raise IndexError, fs)).
    { rewrite (read_toon_field _ _ _ _ _ Hf Hd (out_of_range_truthy _ _ Hout)).
      rewrite (walk_out_of_range _ _ Hout). reflexivity. }
    split; [exact Hr | exact Hr].
  - intros Hbad.
    assert (Hr : read_toon toon_path (Some field) fs = (Raise ValueError, fs)).
    { rewrite (read_toon_field _ _ _ _ _ Hf Hd (bad_index_truthy _ _ Hbad)).
      rewrite (walk_bad_index _ _ Hbad). reflexivity. }
    split; [exact Hr | exact Hr].
Qed.

(** C4.  [get_field] returns exactly what [read_toon] returns on the
    same path and field, raised exceptions included. *)
Theorem get_field_is_read_toon :
  forall toon_path field fs,
    get_field toon_path field fs = read_toon toon_path (Some field) fs.
Proof. intros toon_path field fs. unfold get_field. reflexivity. Qed.

(** C6.  For every TOON file, [read_toon] without a field returns the
    decoded document as JSON with an indent of two spaces, which is
    what [decode_file] returns without an output path. *)
Theorem read_toon_no_field_pretty :
  forall fs toon_path toon_str data,
    files fs !! file_of fs toon_path = Some toon_str ->
    toon_decode toon_str = Ok data ->
    read_toon toon_path None fs = (Ok (json_dumps (Some 2) data), fs)
    /\ decode_file toon_path None fs = read_toon toon_path None fs.
Proof.
  intros fs toon_path toon_str data Hf Hd. split.
  - apply (read_toon_whole _ _ _ _ None Hf Hd). reflexivity.
  - reflexivity.
Qed.

(** C10.  With the empty string as field, [read_toon] extracts nothing:
    it does what it does without a field, and on a TOON file it returns
    the whole document as JSON with an indent of two spaces. *)
Theorem read_toon_empty_field_is_no_field :
  forall fs toon_path,
    read_toon toon_path (Some EmptyString) fs = read_toon toon_path None fs
    /\ (forall toon_str data,
          files fs !! file_of fs toon_path = Some toon_str ->
          toon_decode toon_str = Ok data ->
          read_toon toon_path (Some EmptyString) fs
          = (Ok (json_dumps (Some 2) data), fs)).
Proof.
  intros fs toon_path. split.
  - reflexivity.
  - intros toon_str data Hf Hd.
    apply (read_toon_whole _ _ _ _ (Some EmptyString) Hf Hd). reflexivity.
Qed.

(** C7 (amended).  For every TOON file and non-empty field, when the
    traversal ends on a mapping or a sequence, [read_toon] returns it as
    JSON text without indentation, and when it ends on a scalar other
    than [None], it returns the plain string form of the scalar; so the
    field [a] gives the text of the inner mapping, b before c, on the
    document with b 1 and c 2 under a. *)
Theorem read_toon_result_policy :
  forall fs toon_path toon_str data,
    files fs !! file_of fs toon_path = Some toon_str ->
    toon_decode toon_str = Ok data ->
    (forall field v,
        field <> EmptyString ->
        walk data (split_dot field) = Ok v ->
        (is_container v = true ->
         read_toon toon_path (Some field) fs = (Ok (json_dumps None v), fs))
        /\ (forall a, v = VScalar a ->
            read_toon toon_path (Some field) fs = (Ok (str a), fs)))
    /\ (data = doc_abc ->
        read_toon toon_path (Some "a") fs
        = (Ok ("{" +:+ dquote +:+ "b" +:+ dquote +:+ ": 1, "
                 +:+ dquote +:+ "c" +:+ dquote +:+ ": 2}"), fs)).
Proof.
  intros fs toon_path toon_str data Hf Hd. split.
  - intros field v Hne Hw.
    pose proof (read_toon_field _ _ _ _ _ Hf Hd (str_truthy_nonempty _ Hne)) as Hr.
    rewrite Hw in Hr. split.
    + destruct v; simpl; intros Hc; try discriminate Hc; exact Hr.
    + intros a ->. exact Hr.
  - intros ->.
    rewrite (read_toon_field _ _ _ _ "a" Hf Hd eq_refl). reflexivity.
Qed.


(** ** The claims about [encode_file] and [decode_file] *)

Lemma writable_truthy fs out : writable fs out = true -> truthy (Some out) = true.
Proof. unfold writable. intros H. apply andb_prop in H. exact (proj1 H). Qed.

(** Writing a file leaves every other file as it was. *)
Lemma write_text_frame out text fs r fs' :
  write_text out text fs = (r, fs') ->
  file_of fs' = file_of fs
  /\ readonly fs' = readonly fs
  /\ (forall file, file <> file_of fs out -> files fs' !! file = files fs !! file).
Proof.
  unfold write_text. intros H.
  destruct (writable fs out); inversion H; subst; simpl;
    (split; [reflexivity | split; [reflexivity | ] ]); intros file Hne.
  - apply lookup_insert_ne. congruence.
  - reflexivity.
Qed.

(** The common end of both conversions: write and confirm, or return
    the text. *)
Lemma write_or_return_frame (output_path : option string) (text : string) fs r fs' :
  (if truthy output_path
   then bind (write_text (default EmptyString output_path) text)
             (fun _ => ret ("Wrote " +:+ default EmptyString output_path))
   else ret text) fs = (r, fs') ->
  file_of fs' = file_of fs
  /\ readonly fs' = readonly fs
  /\ (forall file,
        (forall out, output_path = Some out -> file <> file_of fs out) ->
        files fs' !! file = files fs !! file)
  /\ (output_path = None -> fs' = fs).
Proof.
  destruct output_path as [ out | ]; simpl.
  - destruct (str_truthy out); simpl.
    + unfold bind.
      destruct (write_text out text fs) as [ [ [] | e ] fs1 ] eqn:Hw;
        intros H; inversion H; subst;
        destruct (write_text_frame _ _ _ _ _ Hw) as (Hid & Hro & Hq);
        (split; [exact Hid | split; [exact Hro | split; [ | discriminate ] ] ]);
        intros file Hne; apply Hq; apply Hne; reflexivity.
    + intros H; inversion H; subst.
      split; [reflexivity | split; [reflexivity | split; [reflexivity | discriminate ] ] ].
  - intros H; inversion H; subst.
    split; [reflexivity | split; [reflexivity | split; reflexivity ] ].
Qed.

Lemma encode_file_frame json_path output_path fs r fs' :
  encode_file json_path output_path fs = (r, fs') ->
  file_of fs' = file_of fs
  /\ readonly fs' = readonly fs
  /\ (forall file,
        (forall out, output_path = Some out -> file <> file_of fs out) ->
        files fs' !! file = files fs !! file)
  /\ (output_path = None -> fs' = fs).
Proof.
  intros H. unfold encode_file in H. unfold bind at 1 2 3 in H.
  unfold read_text, lift in H.
  destruct (files fs !! file_of fs json_path) as [ text | ];
    [ | inversion H; subst; repeat split; reflexivity ].
  destruct (json_load text) as [ data | e ];
    [ | inversion H; subst; repeat split; reflexivity ].
  destruct (toon_encode data) as [ toon_str | e ];
    [ | inversion H; subst; repeat split; reflexivity ].
  exact (write_or_return_frame _ _ _ _ _ H).
Qed.

Lemma decode_file_frame toon_path output_path fs r fs' :
  decode_file toon_path output_path fs = (r, fs') ->
  file_of fs' = file_of fs
  /\ readonly fs' = readonly fs
  /\ (forall file,
        (forall out, output_path = Some out -> file <> file_of fs out) ->
        files fs' !! file = files fs !! file)
  /\ (output_path = None -> fs' = fs).
Proof.
  intros H. unfold decode_file in H. unfold bind at 1 2 in H.
  unfold read_text, lift in H.
  destruct (files fs !! file_of fs toon_path) as [ toon_str | ];
    [ | inversion H; subst; repeat split; reflexivity ].
  destruct (toon_decode toon_str) as [ data | e ];
    [ | inversion H; subst; repeat split; reflexivity ].
  exact (write_or_return_frame _ _ _ _ _ H).
Qed.

Lemma encode_file_ok fs json_path text data toon_str out :
  files fs !! file_of fs json_path = Some text ->
  json_load text = Ok data ->
  toon_encode data = Ok toon_str ->
  writable fs out = true ->
  encode_file json_path (Some out) fs
  = (Ok ("Wrote " +:+ out),
     mkFS (file_of fs) (<[file_of fs out := toon_str]> (files fs)) (readonly fs)).
Proof.
  intros Hf Hl He Hw. unfold encode_file, bind, read_text, lift.
  rewrite Hf, Hl, He, (writable_truthy _ _ Hw). simpl.
  unfold write_text. rewrite Hw. reflexivity.
Qed.

Lemma decode_file_ok fs toon_path toon_str data out :
  files fs !! file_of fs toon_path = Some toon_str ->
  toon_decode toon_str = Ok data ->
  writable fs out = true ->
  decode_file toon_path (Some out) fs
  = (Ok ("Wrote " +:+ out),
     mkFS (file_of fs) (<[file_of fs out := json_dumps (Some 2) data]> (files fs))
          (readonly fs)).
Proof.
  intros Hf Hd Hw. unfold decode_file, bind, read_text, lift.
  rewrite Hf, Hd, (writable_truthy _ _ Hw). simpl.
  unfold write_text. rewrite Hw. reflexivity.
Qed.

Lemma encode_file_returns fs json_path text data toon_str output_path :
  files fs !! file_of fs json_path = Some text ->
  json_load text = Ok data ->
  toon_encode data = Ok toon_str ->
  truthy output_path = false ->
  encode_file json_path output_path fs = (Ok toon_str, fs).
Proof.
  intros Hf Hl He Ht. unfold encode_file, bind, read_text, lift.
  rewrite Hf, Hl, He, Ht. reflexivity.
Qed.

Lemma decode_file_returns fs toon_path toon_str data output_path :
  files fs !! file_of fs toon_path = Some toon_str ->
  toon_decode toon_str = Ok data ->
  truthy output_path = false ->
  decode_file toon_path output_path fs = (Ok (json_dumps (Some 2) data), fs).
Proof.
  intros Hf Hd Ht. unfold decode_file, bind, read_text, lift.
  rewrite Hf, Hd, Ht. reflexivity.
Qed.

(** C8 (amended).  For every input file that converts, [encode_file]
    and [decode_file] with a non-empty output path that can be opened
    for writing write the converted text to the file it names and
    return the confirmation naming the path; without an output path,
    or with the empty string as output path, they return the converted
    text and leave the file system as it is.  Whatever happens, no file
    other than the one the output path names changes. *)
Theorem file_operations_effect :
  forall fs in_path,
    (forall text data toon_str,
        files fs !! file_of fs in_path = Some text ->
        json_load text = Ok data ->
        toon_encode data = Ok toon_str ->
        (forall out,
            out <> EmptyString ->
            writable fs out = true ->
            encode_file in_path (Some out) fs
            = (Ok ("Wrote " +:+ out),
               mkFS (file_of fs) (<[file_of fs out := toon_str]> (files fs))
                    (readonly fs)))
        /\ encode_file in_path None fs = (Ok toon_str, fs)
        /\ encode_file in_path (Some EmptyString) fs = (Ok toon_str, fs))
    /\ (forall toon_str data,
          files fs !! file_of fs in_path = Some toon_str ->
          toon_decode toon_str = Ok data ->
          (forall out,
              out <> EmptyString ->
              writable fs out = true ->
              decode_file in_path (Some out) fs
              = (Ok ("Wrote " +:+ out),
                 mkFS (file_of fs)
                      (<[file_of fs out := json_dumps (Some 2) data]> (files fs))
                      (readonly fs)))
          /\ decode_file in_path None fs = (Ok (json_dumps (Some 2) data), fs)
          /\ decode_file in_path (Some EmptyString) fs
             = (Ok (json_dumps (Some 2) data), fs))
    /\ (forall output_path r fs',
          encode_file in_path output_path fs = (r, fs')
          \/ decode_file in_path output_path fs = (r, fs') ->
          file_of fs' = file_of fs
          /\ readonly fs' = readonly fs
          /\ (forall file,
                (forall out, output_path = Some out -> file <> file_of fs out) ->
                files fs' !! file = files fs !! file)
          /\ (output_path = None -> fs' = fs)).
Proof.
  intros fs in_path. split; [ | split ].
  - intros text data toon_str Hf Hl He. split; [ | split ].
    + intros out _ Hw. exact (encode_file_ok _ _ _ _ _ _ Hf Hl He Hw).
    + exact (encode_file_returns _ _ _ _ _ None Hf Hl He eq_refl).
    + exact (encode_file_returns _ _ _ _ _ (Some EmptyString) Hf Hl He eq_refl).
  - intros toon_str data Hf Hd. split; [ | split ].
    + intros out _ Hw. exact (decode_file_ok _ _ _ _ _ Hf Hd Hw).
    + exact (decode_file_returns _ _ _ _ None Hf Hd eq_refl).
    + exact (decode_file_returns _ _ _ _ (Some EmptyString) Hf Hd eq_refl).
  - intros output_path r fs' [H | H].
    + exact (encode_file_frame _ _ _ _ _ H).
    + exact (decode_file_frame _ _ _ _ _ H).
Qed.

(** ** Further properties of the file operations *)

Lemma read_toon_read_only_aux toon_path field fs :
  snd (read_toon toon_path field fs) = fs
  /\ exists r, read_toon toon_path field fs = (r, fs).
Proof.
  unfold read_toon, bind, read_text, lift.
  destruct (files fs !! file_of fs toon_path) as [ toon_str | ]; [ | eauto ].
  destruct (toon_decode toon_str) as [ data | e ]; [ | eauto ].
  destruct (truthy field); [ | eauto ].
  destruct (walk data (split_dot (default EmptyString field)))
    as [ [ | a | l | d ] | e ]; eauto.
Qed.

(** X1.  [read_toon] and [get_field] only read: whatever the path and
    the field, and whether they return or raise, the file system after
    the call is the one before it. *)
Theorem read_toon_read_only :
  forall toon_path field fs,
    snd (read_toon toon_path field fs) = fs
    /\ (forall f, snd (get_field toon_path f fs) = fs).
Proof.
  intros toon_path field fs. split.
  - exact (proj1 (read_toon_read_only_aux toon_path field fs)).
  - intros f. unfold get_field.
    exact (proj1 (read_toon_read_only_aux toon_path (Some f) fs)).
Qed.

(** X2.  When the input path names no readable file, [encode_file],
    [decode_file] and [read_toon] raise what [open] raises for that
    path, whatever the output path or the field, and change nothing. *)
Theorem missing_input_raises :
  forall fs path,
    files fs !! file_of fs path = None ->
    (forall output_path,
        encode_file path output_path fs = (Raise (OpenError path), fs))
    /\ (forall output_path,
          decode_file path output_path fs = (Raise (OpenError path), fs))
    /\ (forall field,
          read_toon path field fs = (Raise (OpenError path), fs)).
Proof.
  intros fs path Hf. repeat split; intros o;
    unfold encode_file, decode_file, read_toon, bind, read_text;
    rewrite Hf; reflexivity.
Qed.

(** X3.  When the decoder rejects the text of the input file,
    [decode_file], [read_toon] and [get_field] raise the decoder's
    exception, whatever the output path or the field; [decode_file]
    neither creates nor overwrites the output file. *)
Theorem malformed_toon_raises :
  forall fs path toon_str e,
    files fs !! file_of fs path = Some toon_str ->
    toon_decode toon_str = Raise e ->
    (forall output_path, decode_file path output_path fs = (Raise e, fs))
    /\ (forall field, read_toon path field fs = (Raise e, fs))
    /\ (forall field, get_field path field fs = (Raise e, fs)).
Proof.
  intros fs path toon_str e Hf Hd. repeat split; intros o;
    unfold get_field, decode_file, read_toon, bind, read_text, lift;
    rewrite Hf, Hd; reflexivity.
Qed.

(** X4.  When [json.load] rejects the input text, or the encoder
    rejects the loaded document, [encode_file] raises that exception
    and neither creates nor overwrites the output file. *)
Theorem failed_encode_raises :
  forall fs path text e,
    files fs !! file_of fs path = Some text ->
    (json_load text = Raise e
     \/ exists data, json_load text = Ok data /\ toon_encode data = Raise e) ->
    forall output_path, encode_file path output_path fs = (Raise e, fs).
Proof.
  intros fs path text e Hf [Hl | (data & Hl & He)] output_path;
    unfold encode_file, bind, read_text, lift; rewrite Hf, Hl.
  - reflexivity.
  - rewrite He. reflexivity.
Qed.

(** X5.  Encoding a JSON file into an output file and decoding that
    file again gives the JSON text of the loaded document with an
    indent of two, provided the decoder maps the encoder's text back to
    the document; [read_toon] without a field gives the same. *)
Theorem encode_then_decode :
  forall fs json_path out text data toon_str,
    files fs !! file_of fs json_path = Some text ->
    json_load text = Ok data ->
    toon_encode data = Ok toon_str ->
    toon_decode toon_str = Ok data ->
    writable fs out = true ->
    exists fs1,
      encode_file json_path (Some out) fs = (Ok ("Wrote " +:+ out), fs1)
      /\ decode_file out None fs1 = (Ok (json_dumps (Some 2) data), fs1)
      /\ read_toon out None fs1 = (Ok (json_dumps (Some 2) data), fs1).
Proof.
  intros fs json_path out text data toon_str Hf Hl He Hd Hw.
  eexists. split; [exact (encode_file_ok _ _ _ _ _ _ Hf Hl He Hw) | ].
  set (fs1 := mkFS (file_of fs) (<[file_of fs out := toon_str]> (files fs))
                   (readonly fs)).
  assert (Hout : files fs1 !! file_of fs1 out = Some toon_str)
    by (simpl; apply lookup_insert_eq).
  split.
  - unfold decode_file, bind, read_text, lift. rewrite Hout, Hd. reflexivity.
  - apply (read_toon_whole _ _ _ _ None Hout Hd). reflexivity.
Qed.

(** X6.  Running a conversion a second time with the same arguments,
    the input path naming another file than the output path, returns
    the same and leaves the file system as the first run left it. *)
Theorem conversion_rerun :
  forall fs in_path out r fs1,
    file_of fs in_path <> file_of fs out ->
    (encode_file in_path (Some out) fs = (Ok r, fs1) ->
     encode_file in_path (Some out) fs1 = (Ok r, fs1))
    /\ (decode_file in_path (Some out) fs = (Ok r, fs1) ->
        decode_file in_path (Some out) fs1 = (Ok r, fs1)).
Proof.
  intros fs in_path out r fs1 Hne. split; intros H.
  - unfold encode_file, bind, read_text, lift in H.
    destruct (files fs !! file_of fs in_path) as [ text | ] eqn:Hf; [ | discriminate H ].
    destruct (json_load text) as [ data | e ] eqn:Hl; [ | discriminate H ].
    destruct (toon_encode data) as [ toon_str | e ] eqn:He; [ | discriminate H ].
    simpl in H. destruct (str_truthy out) eqn:Ht.
    + unfold write_text in H. destruct (writable fs out) eqn:Hw.
      * inversion H; subst.
        rewrite (encode_file_ok _ in_path text data toon_str out).
        -- simpl. rewrite insert_insert_eq. reflexivity.
        -- simpl. rewrite lookup_insert_ne by congruence. exact Hf.
        -- exact Hl.
        -- exact He.
        -- exact Hw.
      * discriminate H.
    + inversion H; subst.
      unfold encode_file, bind, read_text, lift. rewrite Hf, Hl, He. simpl.
      rewrite Ht. reflexivity.
  - unfold decode_file, bind, read_text, lift in H.
    destruct (files fs !! file_of fs in_path) as [ toon_str | ] eqn:Hf; [ | discriminate H ].
    destruct (toon_decode toon_str) as [ data | e ] eqn:Hd; [ | discriminate H ].
    simpl in H. destruct (str_truthy out) eqn:Ht.
    + unfold write_text in H. destruct (writable fs out) eqn:Hw.
      * inversion H; subst.
        rewrite (decode_file_ok _ in_path toon_str data out).
        -- simpl. rewrite insert_insert_eq. reflexivity.
        -- simpl. rewrite lookup_insert_ne by congruence. exact Hf.
        -- exact Hd.
        -- exact Hw.
      * discriminate H.
    + inversion H; subst.
      unfold decode_file, bind, read_text, lift. rewrite Hf, Hd. simpl.
      rewrite Ht. reflexivity.
Qed.

(** X7.  The empty string as output path counts as no output path:
    both conversions return what they return without one, and write
    nothing. *)
Theorem empty_output_path_is_none :
  forall path fs,
    encode_file path (Some EmptyString) fs = encode_file path None fs
    /\ decode_file path (Some EmptyString) fs = decode_file path None fs
    /\ snd (encode_file path (Some EmptyString) fs) = fs
    /\ snd (decode_file path (Some EmptyString) fs) = fs.
Proof.
  intros path fs. split; [reflexivity | split; [reflexivity | ] ]. split.
  - destruct (encode_file path (Some EmptyString) fs) as [r fs'] eqn:H.
    change (encode_file path (Some EmptyString) fs)
      with (encode_file path None fs) in H.
    apply encode_file_frame in H. simpl. apply H. reflexivity.
  - destruct (decode_file path (Some EmptyString) fs) as [r fs'] eqn:H.
    change (decode_file path (Some EmptyString) fs)
      with (decode_file path None fs) in H.
    apply decode_file_frame in H. simpl. apply H. reflexivity.
Qed.

(** ** Further properties of the traversal *)

(** Splitting two fields joined by a dot gives the segments of the
    first followed by those of the second. *)
Lemma split_dot_app (s1 s2 : string) :
  split_dot (s1 +:+ "." +:+ s2) = (split_dot s1 ++ split_dot s2)%list.
Proof.
  induction s1 as [ | c rest IH ]; [reflexivity | ].
  pose proof (split_dot_not_nil rest) as Hnil.
  change (String c rest +:+ "." +:+ s2) with (String c (rest +:+ "." +:+ s2)).
  simpl. destruct (Ascii.eqb c "."%char).
  - rewrite IH. reflexivity.
  - rewrite IH. destruct (split_dot rest) as [ | p ps ]; [congruence | reflexivity].
Qed.

(** The loop over two lists of segments in a row is the loop over the
    second, started where the first one ended. *)
Lemma walk_app parts1 parts2 : forall cur x,
  walk cur parts1 = Ok x -> walk cur (parts1 ++ parts2)%list = walk x parts2.
Proof.
  induction parts1 as [ | part rest IH ]; intros cur x Hw; simpl in Hw.
  - inversion Hw; subst. reflexivity.
  - simpl. destruct cur as [ | a | l | d ].
    + inversion Hw; subst. symmetry. apply walk_None.
    + inversion Hw; subst. symmetry. apply walk_None.
    + destruct (isdigit part).
      * destruct (int part) as [ n | e ]; [ | discriminate Hw ].
        destruct (l !! N.to_nat n) as [ y | ]; [ | discriminate Hw ].
        apply IH. exact Hw.
      * inversion Hw; subst. symmetry. apply walk_None.
    + apply IH. exact Hw.
Qed.

Lemma joined_field_truthy (s1 s2 : string) :
  str_truthy (s1 +:+ "." +:+ s2) = true.
Proof. destruct s1; reflexivity. Qed.

(** X8.  Extraction composes along the dots: when the traversal of a
    field ends on a value, the answer for that field followed by a dot
    and a second, non-empty field is the answer for the second field on
    a file that decodes to that value. *)
Theorem read_toon_nested_field :
  forall fs path toon_str data path' toon_str' sub field1 field2,
    files fs !! file_of fs path = Some toon_str ->
    toon_decode toon_str = Ok data ->
    files fs !! file_of fs path' = Some toon_str' ->
    toon_decode toon_str' = Ok sub ->
    walk data (split_dot field1) = Ok sub ->
    field2 <> EmptyString ->
    read_toon path (Some (field1 +:+ "." +:+ field2)) fs
    = read_toon path' (Some field2) fs.
Proof.
  intros fs path toon_str data path' toon_str' sub field1 field2
         Hf Hd Hf' Hd' Hw Hne.
  rewrite (read_toon_field _ _ _ _ _ Hf Hd (joined_field_truthy _ _)).
  rewrite (read_toon_field _ _ _ _ _ Hf' Hd' (str_truthy_nonempty _ Hne)).
  rewrite split_dot_app, (walk_app _ _ _ _ Hw). reflexivity.
Qed.

(** When [int] converts a segment with a zero in front, it converts
    the segment itself, if there is one, to the same number. *)
Lemma int_leading_zero (k : string) (n : N) :
  str_truthy k = true ->
  int (String "0"%char k) = Ok n -> int k = Ok n.
Proof.
  intros Hk. unfold int. simpl. rewrite Hk. simpl.
  destruct (all_decimal k); simpl; [ | discriminate ].
  destruct (Nat.eqb int_max_str_digits 0) eqn:Hz; simpl.
  - intros H. exact H.
  - destruct int_max_str_digits as [ | m ]; [discriminate Hz | ].
    destruct (Nat.leb (String.length k) m) eqn:Hle; [ | discriminate ].
    apply Nat.leb_le in Hle.
    rewrite (proj2 (Nat.leb_le (String.length k) (S m))) by lia.
    intros H. exact H.
Qed.

(** X9.  Zeros in front of an index do not matter as long as [int]
    converts the longer segment: on a sequence, an all-digits segment
    with a zero put before it selects what the segment itself selects,
    and raises [IndexError] when it does. *)
Theorem index_leading_zero :
  forall l k n rest,
    isdigit k = true ->
    int (String "0"%char k) = Ok n ->
    walk (VList l) (String "0"%char k :: rest) = walk (VList l) (k :: rest).
Proof.
  intros l k n rest Hk Hn.
  assert (Hz : isdigit (String "0"%char k) = true).
  { unfold isdigit in *. apply andb_prop in Hk. destruct Hk as [_ Hall].
    simpl. exact Hall. }
  change (walk (VList l) (String "0"%char k :: rest))
    with (if isdigit (String "0"%char k)
          then match int (String "0"%char k) with
               | Ok i => match l !! N.to_nat i with
                         | Some x => walk x rest
                         | None => Raise IndexError
                         end
               | Raise e => Raise e
               end
          else Ok VNone).
  assert (Ht : str_truthy k = true).
  { unfold isdigit in Hk. apply andb_prop in Hk. exact (proj1 Hk). }
  rewrite Hz, Hn. simpl. rewrite Hk, (int_leading_zero _ _ Ht Hn). reflexivity.
Qed.

Lemma split_dot_minus (s : string) :
  exists p ps, split_dot (String "-"%char s) = String "-"%char p :: ps.
Proof.
  pose proof (split_dot_not_nil s) as Hnil. simpl.
  destruct (split_dot s) as [ | p ps ]; [congruence | ].
  exists p, ps. reflexivity.
Qed.

(** X10.  A sequence is never indexed from its end: when the traversal
    of a field ends on a sequence, that field followed by a dot and
    anything that starts with a minus sign gives the empty string, and
    no exception. *)
Theorem read_toon_negative_index :
  forall fs path toon_str data field l s,
    files fs !! file_of fs path = Some toon_str ->
    toon_decode toon_str = Ok data ->
    walk data (split_dot field) = Ok (VList l) ->
    read_toon path (Some (field +:+ "." +:+ String "-"%char s)) fs
    = (Ok EmptyString, fs).
Proof.
  intros fs path toon_str data field l s Hf Hd Hw.
  rewrite (read_toon_field _ _ _ _ _ Hf Hd (joined_field_truthy _ _)).
  rewrite split_dot_app, (walk_app _ _ _ _ Hw).
  destruct (split_dot_minus s) as (p & ps & ->). reflexivity.
Qed.

Lemma dict_lookup_dotted d part :
  Forall (fun kv => has_dot (fst kv) = true) d ->
  has_dot part = false ->
  dict_lookup d part = None.
Proof.
  intros Hd Hp. induction Hd as [ | [k x] rest Hk _ IH ]; [reflexivity | ].
  simpl in *. destruct (String.eqb_spec k part) as [ -> | _ ]; [congruence | exact IH].
Qed.

(** X11.  A key with a dot in its name cannot be asked for: on a
    document that is a mapping whose keys all have a dot, every
    non-empty field gives the empty string. *)
Theorem read_toon_dotted_keys :
  forall fs path toon_str d field,
    files fs !! file_of fs path = Some toon_str ->
    toon_decode toon_str = Ok (VDict d) ->
    Forall (fun kv => has_dot (fst kv) = true) d ->
    field <> EmptyString ->
    read_toon path (Some field) fs = (Ok EmptyString, fs).
Proof.
  intros fs path toon_str d field Hf Hd Hkeys Hne.
  rewrite (read_toon_field _ _ _ _ _ Hf Hd (str_truthy_nonempty _ Hne)).
  pose proof (split_dot_no_dot field) as Hparts.
  pose proof (split_dot_not_nil field) as Hnil.
  destruct (split_dot field) as [ | part rest ]; [congruence | ].
  inversion Hparts as [ | ? ? Hpart _ ]; subst.
  simpl. unfold dict_get. rewrite (dict_lookup_dotted _ _ Hkeys Hpart). simpl.
  rewrite walk_None. reflexivity.
Qed.

(** X19.  On a file that decodes, field extraction raises [IndexError]
    exactly when the traversal of the field runs out of range of a
    sequence, raises [ValueError] exactly when it comes to an
    all-digits segment that [int] does not convert, raises nothing
    else, and in every other case returns a string. *)
Theorem read_toon_exceptions :
  forall fs path toon_str data field,
    files fs !! file_of fs path = Some toon_str ->
    toon_decode toon_str = Ok data ->
    (forall e, read_toon path (Some field) fs = (Raise e, fs) ->
               (e = IndexError /\ out_of_range data (split_dot field))
               \/ (e = ValueError /\ bad_index data (split_dot field)))
    /\ (out_of_range data (split_dot field) ->
        read_toon path (Some field) fs = (Raise IndexError, fs))
    /\ (bad_index data (split_dot field) ->
        read_toon path (Some field) fs = (Raise ValueError, fs))
    /\ (~ out_of_range data (split_dot field) ->
        ~ bad_index data (split_dot field) ->
        exists s, read_toon path (Some field) fs = (Ok s, fs)).
Proof.
  intros fs path toon_str data field Hf Hd.
  destruct (str_truthy field) eqn:Ht.
  - rewrite (read_toon_field _ _ _ _ _ Hf Hd Ht).
    destruct (traversal_cases (split_dot field) data)
      as [ (v & Hc) | [ Hdead | [ Hout | Hbad ] ] ].
    + pose proof (walk_contains _ _ _ Hc) as Hw. rewrite Hw.
      split; [ | split; [ | split ] ].
      * intros e He. destruct v; discriminate He.
      * intros Hout. apply walk_out_of_range in Hout. congruence.
      * intros Hbad. apply walk_bad_index in Hbad. congruence.
      * intros _ _. destruct v; eauto.
    + pose proof (walk_dead_end _ _ Hdead) as Hw. rewrite Hw.
      split; [ | split; [ | split ] ].
      * intros e He. discriminate He.
      * intros Hout. apply walk_out_of_range in Hout. congruence.
      * intros Hbad. apply walk_bad_index in Hbad. congruence.
      * intros _ _. eauto.
    + rewrite (walk_out_of_range _ _ Hout).
      split; [ | split; [ | split ] ].
      * intros e He. inversion He; subst. left. split; [reflexivity | exact Hout].
      * intros _. reflexivity.
      * intros Hbad. apply walk_bad_index in Hbad.
        rewrite (walk_out_of_range _ _ Hout) in Hbad. discriminate Hbad.
      * intros Hno. contradiction.
    + rewrite (walk_bad_index _ _ Hbad).
      split; [ | split; [ | split ] ].
      * intros e He. inversion He; subst. right. split; [reflexivity | exact Hbad].
      * intros Hout. apply walk_out_of_range in Hout.
        rewrite (walk_bad_index _ _ Hbad) in Hout. discriminate Hout.
      * intros _. reflexivity.
      * intros _ Hno. contradiction.
  - assert (Hwhole : read_toon path (Some field) fs
                     = (Ok (json_dumps (Some 2) data), fs))
      by (apply (read_toon_whole _ _ _ _ (Some field) Hf Hd); exact Ht).
    rewrite Hwhole. split; [ | split; [ | split ] ].
    + intros e He. discriminate He.
    + intros Hout. apply out_of_range_truthy in Hout. congruence.
    + intros Hbad. apply bad_index_truthy in Hbad. congruence.
    + intros _ _. eauto.
Qed.

(** ** Properties of the command line *)

Lemma final_print_call (m : M string) fs : final (print_call m fs) = snd (m fs).
Proof. unfold print_call. destruct (m fs) as [ [ s | e ] fs' ]; reflexivity. Qed.

Lemma print_call_returns (m : M string) fs s fs' :
  m fs = (Ok s, fs') -> print_call m fs = mkOutcome [s] [] Finished fs'.
Proof. unfold print_call. intros ->. reflexivity. Qed.

Lemma print_call_raises (m : M string) fs e fs' :
  m fs = (Raise e, fs') -> print_call m fs = mkOutcome [] [] (Uncaught e) fs'.
Proof. unfold print_call. intros ->. reflexivity. Qed.

(** X12.  With fewer than three entries in [sys.argv], [main] prints
    the module's usage text on standard output and exits with status 1;
    [get] without a field prints its usage line on standard error and
    exits with status 1.  Neither opens a file. *)
Theorem main_missing_arguments :
  forall argv fs,
    (length argv < 3 ->
     main argv fs = mkOutcome [module_doc] [] (SystemExit 1) fs)
    /\ (forall prog path,
          argv = [prog; "get"; path] ->
          main argv fs = mkOutcome [] [get_usage] (SystemExit 1) fs).
Proof.
  intros argv fs. split.
  - intros Hlen. destruct argv as [ | a [ | b [ | c rest ] ] ]; try reflexivity.
    simpl in Hlen. lia.
  - intros prog path ->. reflexivity.
Qed.


(** X14.  On the command line, [read] with a field does what [get]
    does with it, and [read] without a field does what [decode] does
    without an output file. *)
Theorem main_read_as_get_and_decode :
  forall prog path fs,
    (forall field rest,
        main (prog :: "read" :: path :: field :: rest) fs
        = main (prog :: "get" :: path :: field :: rest) fs)
    /\ main [prog; "read"; path] fs = main [prog; "decode"; path] fs.
Proof. intros prog path fs. split; [intros field rest | ]; reflexivity. Qed.

(** X15.  A run of [main] changes no file other than the one that the
    fourth entry of [sys.argv] names, and changes none at all unless
    the command is [encode] or [decode]. *)
Theorem main_frame :
  forall argv fs,
    file_of (final (main argv fs)) = file_of fs
    /\ readonly (final (main argv fs)) = readonly fs
    /\ (forall file,
          (forall out, argv !! 3 = Some out -> file <> file_of fs out) ->
          files (final (main argv fs)) !! file = files fs !! file)
    /\ (argv !! 1 <> Some "encode" -> argv !! 1 <> Some "decode" ->
        final (main argv fs) = fs).
Proof.
  intros argv fs.
  destruct argv as [ | prog [ | command [ | path rest ] ] ];
    try (repeat split; reflexivity).
  assert (H3 : (prog :: command :: path :: rest) !! 3 = head rest)
    by (destruct rest; reflexivity).
  assert (H1 : (prog :: command :: path :: rest) !! 1 = Some command)
    by reflexivity.
  rewrite H1. setoid_rewrite H3. unfold main.
  destruct (String.eqb_spec command "encode") as [ -> | Hne ].
  { rewrite final_print_call.
    destruct (encode_file path (head rest) fs) as [r fs'] eqn:Hrun.
    destruct (encode_file_frame _ _ _ _ _ Hrun) as (Hid & Hro & Hq & _). simpl.
    split; [exact Hid | split; [exact Hro | split; [exact Hq | congruence ] ] ]. }
  destruct (String.eqb_spec command "decode") as [ -> | Hnd ].
  { rewrite final_print_call.
    destruct (decode_file path (head rest) fs) as [r fs'] eqn:Hrun.
    destruct (decode_file_frame _ _ _ _ _ Hrun) as (Hid & Hro & Hq & _). simpl.
    split; [exact Hid | split; [exact Hro | split; [exact Hq | congruence ] ] ]. }
  assert (Hread : forall field, final (print_call (read_toon path field) fs) = fs).
  { intros field. rewrite final_print_call.
    apply (proj1 (read_toon_read_only_aux path field fs)). }
  destruct (String.eqb_spec command "read") as [ -> | Hnr ].
  { rewrite Hread. repeat split; reflexivity. }
  destruct (String.eqb_spec command "get") as [ -> | Hng ].
  { destruct rest as [ | field rest' ]; [repeat split; reflexivity | ].
    unfold get_field. rewrite Hread. repeat split; reflexivity. }
  repeat split; reflexivity.
Qed.

(** X16.  How a run of [main] can end: it returns after printing one
    string on standard output and nothing on standard error; or it
    exits, always with status 1 and with the file system untouched; or
    an exception is left uncaught, and then it has printed nothing.  So
    the exit status is 0 or 1, and it is 0 only after a result was
    printed. *)
Theorem main_outcome_shape :
  forall argv fs,
    match status (main argv fs) with
    | Finished =>
        (exists s, stdout (main argv fs) = [s]) /\ stderr (main argv fs) = []
    | SystemExit code => code = 1%Z /\ final (main argv fs) = fs
    | Uncaught _ => stdout (main argv fs) = [] /\ stderr (main argv fs) = []
    end
    /\ (exit_status (status (main argv fs)) = 0%Z
        \/ exit_status (status (main argv fs)) = 1%Z).
Proof.
  intros argv fs.
  assert (Hcall : forall m : M string,
             match status (print_call m fs) with
             | Finished =>
                 (exists s, stdout (print_call m fs) = [s])
                 /\ stderr (print_call m fs) = []
             | SystemExit code => code = 1%Z /\ final (print_call m fs) = fs
             | Uncaught _ =>
                 stdout (print_call m fs) = [] /\ stderr (print_call m fs) = []
             end
             /\ (exit_status (status (print_call m fs)) = 0%Z
                 \/ exit_status (status (print_call m fs)) = 1%Z)).
  { intros m. unfold print_call. destruct (m fs) as [ [ s | e ] fs' ]; simpl.
    - split; [split; [exists s; reflexivity | reflexivity] | left; reflexivity].
    - split; [split; reflexivity | right; reflexivity]. }
  destruct argv as [ | prog [ | command [ | path rest ] ] ];
    try (simpl; split; [split; reflexivity | right; reflexivity]).
  unfold main.
  destruct (String.eqb command "encode"); [apply Hcall | ].
  destruct (String.eqb command "decode"); [apply Hcall | ].
  destruct (String.eqb command "read"); [apply Hcall | ].
  destruct (String.eqb command "get").
  - destruct rest as [ | field rest' ]; [ | apply Hcall ].
    simpl. split; [split; reflexivity | right; reflexivity].
  - simpl. split; [split; reflexivity | right; reflexivity].
Qed.

(** X17.  For a script: when the document of the file contains the
    path of a non-empty field, every index on it written as an
    all-digits segment that [int] converts, and the path leads to a
    string, [get] and [read] print that string and nothing else, and
    the run ends with status 0. *)
Theorem main_get_prints_string :
  forall prog path field rest fs toon_str data s,
    files fs !! file_of fs path = Some toon_str ->
    toon_decode toon_str = Ok data ->
    field <> EmptyString ->
    contains data (split_dot field) (VScalar (SStr s)) ->
    main (prog :: "get" :: path :: field :: rest) fs
    = mkOutcome [s] [] Finished fs
    /\ main (prog :: "read" :: path :: field :: rest) fs
      = mkOutcome [s] [] Finished fs.
Proof.
  intros prog path field rest fs toon_str data s Hf Hd Hne Hc.
  assert (Hr : read_toon path (Some field) fs = (Ok s, fs)).
  { rewrite (read_toon_field _ _ _ _ _ Hf Hd (str_truthy_nonempty _ Hne)).
    rewrite (walk_contains _ _ _ Hc). reflexivity. }
  split; exact (print_call_returns _ _ _ _ Hr).
Qed.

(** X18.  When the traversal of the field comes to a sequence with an
    all-digits segment that [int] converts to a number at or past its
    length, [get] and [read] print nothing: [IndexError] is left
    uncaught and the exit status is 1.  When [int] does not convert the
    segment, the same holds with [ValueError]. *)
Theorem main_index_error :
  forall prog path field rest fs toon_str data,
    files fs !! file_of fs path = Some toon_str ->
    toon_decode toon_str = Ok data ->
    (out_of_range data (split_dot field) ->
     main (prog :: "get" :: path :: field :: rest) fs
     = mkOutcome [] [] (Uncaught IndexError) fs
     /\ main (prog :: "read" :: path :: field :: rest) fs
       = mkOutcome [] [] (Uncaught IndexError) fs
     /\ exit_status (status (main (prog :: "get" :: path :: field :: rest) fs))
       = 1%Z)
    /\ (bad_index data (split_dot field) ->
        main (prog :: "get" :: path :: field :: rest) fs
        = mkOutcome [] [] (Uncaught ValueError) fs
        /\ main (prog :: "read" :: path :: field :: rest) fs
          = mkOutcome [] [] (Uncaught ValueError) fs
        /\ exit_status (status (main (prog :: "get" :: path :: field :: rest) fs))
          = 1%Z).
Proof.
  intros prog path field rest fs toon_str data Hf Hd.
  assert (Raised : forall e,
             read_toon path (Some field) fs = (Raise e, fs) ->
             main (prog :: "get" :: path :: field :: rest) fs
             = mkOutcome [] [] (Uncaught e) fs
             /\ main (prog :: "read" :: path :: field :: rest) fs
               = mkOutcome [] [] (Uncaught e) fs
             /\ exit_status
                  (status (main (prog :: "get" :: path :: field :: rest) fs))
               = 1%Z).
  { intros e Hr.
    assert (Hget : main (prog :: "get" :: path :: field :: rest) fs
                   = mkOutcome [] [] (Uncaught e) fs)
      by exact (print_call_raises _ _ _ _ Hr).
    split; [exact Hget | split; [exact (print_call_raises _ _ _ _ Hr) | ] ].
    rewrite Hget. reflexivity. }
  split.
  - intros Hout. apply Raised.
    rewrite (read_toon_field _ _ _ _ _ Hf Hd (out_of_range_truthy _ _ Hout)).
    rewrite (walk_out_of_range _ _ Hout). reflexivity.
  - intros Hbad. apply Raised.
    rewrite (read_toon_field _ _ _ _ _ Hf Hd (bad_index_truthy _ _ Hbad)).
    rewrite (walk_bad_index _ _ Hbad). reflexivity.
Qed.

End ToonUtil.

(** ** The claims run on the sample files

    Floats are carried by their text here, so both renderings are the
    identity; the codec is the one given by the tables; the limit on
    the digits of [int] is the default one, 4300. *)



Lemma read_toon_dead_end_empty_witness :
  files sample_fs !! file_of sample_fs "a1.toon" = Some text_a1
  /\ sample_decode (pyfloat := string) text_a1 = Ok doc_a1
  /\ "a.b" <> EmptyString
  /\ dead_end default_max_str_digits (pyfloat := string) doc_a1 (split_dot "a.b")
  /\ read_toon default_max_str_digits id id sample_decode
       "a1.toon" (Some "a.b") sample_fs
     = (Ok EmptyString, sample_fs).
Proof.
  assert (Hf : files sample_fs !! file_of sample_fs "a1.toon" = Some text_a1)
    by (vm_compute; reflexivity).
  assert (Hd : sample_decode (pyfloat := string) text_a1 = Ok doc_a1)
    by (vm_compute; reflexivity).
  assert (Hne : "a.b" <> EmptyString) by discriminate.
  assert (Hdead : dead_end default_max_str_digits (pyfloat := string)
                    doc_a1 (split_dot "a.b")).
  { exists (VScalar (SInt 1)), "b", []. split; [ | exact I].
    eapply reaches_key; [reflexivity | ]. apply reaches_here. }
  repeat (split; [assumption | ]).
  exact (proj1 (read_toon_dead_end_empty default_max_str_digits
                  id id sample_decode
                  sample_fs "a1.toon" text_a1 doc_a1 Hf Hd)
           "a.b" Hne Hdead).
Defined.

(** C3 as stated fails: 4301 nines are all digits and write a number
    far above the length of the sequence under items, yet [read_toon]
    raises [ValueError] and not [IndexError].  With no limit on the
    digits at all, the all-digits segment U+00B2 does the same. *)
Lemma read_toon_index_out_of_range_counterexample :
  files sample_fs !! file_of sample_fs "items.toon" = Some text_items
  /\ sample_decode (pyfloat := string) text_items = Ok doc_items
  /\ split_dot field_nines = ["items"; copies 4301 "9"%char]
  /\ isdigit (copies 4301 "9"%char) = true
  /\ (N.of_nat (length [VScalar (pyfloat := string) (SStr "x"); VScalar (SStr "y")])
      <= decimal_value (copies 4301 "9"%char))%N
  /\ read_toon default_max_str_digits id id sample_decode
       "items.toon" (Some field_nines) sample_fs
     = (Raise ValueError, sample_fs)
  /\ read_toon default_max_str_digits id id sample_decode
       "items.toon" (Some field_nines) sample_fs
     <> (Raise IndexError, sample_fs)
  /\ isdigit superscript_two = true
  /\ read_toon 0 id id sample_decode
       "items.toon" (Some ("items." +:+ superscript_two)) sample_fs
     = (Raise ValueError, sample_fs).
Proof.
  split; [vm_compute; reflexivity | ].
  split; [vm_compute; reflexivity | ].
  split; [vm_compute; reflexivity | ].
  split; [vm_compute; reflexivity | ].
  split; [vm_compute; discriminate | ].
  split; [vm_compute; reflexivity | ].
  split; [vm_compute; discriminate | ].
  split; [vm_compute; reflexivity | ].
  vm_compute. reflexivity.
Qed.

Lemma read_toon_index_out_of_range_witness :
  files sample_fs !! file_of sample_fs "items.toon" = Some text_items
  /\ sample_decode (pyfloat := string) text_items = Ok doc_items
  /\ out_of_range default_max_str_digits (pyfloat := string)
       doc_items (split_dot "items.2")
  /\ bad_index default_max_str_digits (pyfloat := string)
       doc_items (split_dot field_nines)
  /\ read_toon default_max_str_digits id id sample_decode
       "items.toon" (Some "items.2") sample_fs
     = (Raise IndexError, sample_fs)
  /\ get_field default_max_str_digits id id sample_decode
       "items.toon" "items.2" sample_fs
     = (Raise IndexError, sample_fs)
  /\ get_field default_max_str_digits id id sample_decode
       "items.toon" field_nines sample_fs
     = (Raise ValueError, sample_fs).
Proof.
  assert (Hf : files sample_fs !! file_of sample_fs "items.toon" = Some text_items)
    by (vm_compute; reflexivity).
  assert (Hd : sample_decode (pyfloat := string) text_items = Ok doc_items)
    by (vm_compute; reflexivity).
  assert (Hout : out_of_range default_max_str_digits (pyfloat := string)
                   doc_items (split_dot "items.2")).
  { exists [VScalar (SStr "x"); VScalar (SStr "y")], "2", 2%N, [].
    split; [ | split; [reflexivity | split; [reflexivity | vm_compute; discriminate] ] ].
    eapply reaches_key; [reflexivity | ]. apply reaches_here. }
  assert (Hbad : bad_index default_max_str_digits (pyfloat := string)
                   doc_items (split_dot field_nines)).
  { exists [VScalar (SStr "x"); VScalar (SStr "y")], (copies 4301 "9"%char), [].
    split; [ | split; vm_compute; reflexivity ].
    replace (split_dot field_nines) with ["items"; copies 4301 "9"%char]
      by (vm_compute; reflexivity).
    eapply reaches_key; [reflexivity | ]. apply reaches_here. }
  repeat (split; [assumption | ]).
  destruct (read_toon_index_out_of_range default_max_str_digits
              id id sample_decode
              sample_fs "items.toon" text_items doc_items "items.2" Hf Hd)
    as [Hrange _].
  destruct (read_toon_index_out_of_range default_max_str_digits
              id id sample_decode
              sample_fs "items.toon" text_items doc_items field_nines Hf Hd)
    as [_ Hvalue].
  split; [exact (proj1 (Hrange Hout)) | ].
  split; [exact (proj2 (Hrange Hout)) | exact (proj2 (Hvalue Hbad))].
Defined.

Lemma read_toon_no_field_pretty_witness :
  files sample_fs !! file_of sample_fs "a1.toon" = Some text_a1
  /\ sample_decode (pyfloat := string) text_a1 = Ok doc_a1
  /\ read_toon default_max_str_digits id id sample_decode "a1.toon" None sample_fs
     = (Ok (json_dumps id (Some 2) doc_a1), sample_fs)
  /\ decode_file id sample_decode "a1.toon" None sample_fs
     = read_toon default_max_str_digits id id sample_decode "a1.toon" None sample_fs.
Proof.
  assert (Hf : files sample_fs !! file_of sample_fs "a1.toon" = Some text_a1)
    by (vm_compute; reflexivity).
  assert (Hd : sample_decode (pyfloat := string) text_a1 = Ok doc_a1)
    by (vm_compute; reflexivity).
  repeat (split; [assumption | ]).
  exact (read_toon_no_field_pretty default_max_str_digits id id sample_decode
           sample_fs "a1.toon" text_a1 doc_a1 Hf Hd).
Defined.

Lemma read_toon_empty_field_is_no_field_witness :
  files sample_fs !! file_of sample_fs "a1.toon" = Some text_a1
  /\ sample_decode (pyfloat := string) text_a1 = Ok doc_a1
  /\ read_toon default_max_str_digits id id sample_decode
       "a1.toon" (Some EmptyString) sample_fs
     = (Ok (json_dumps id (Some 2) doc_a1), sample_fs).
Proof.
  assert (Hf : files sample_fs !! file_of sample_fs "a1.toon" = Some text_a1)
    by (vm_compute; reflexivity).
  assert (Hd : sample_decode (pyfloat := string) text_a1 = Ok doc_a1)
    by (vm_compute; reflexivity).
  repeat (split; [assumption | ]).
  exact (proj2 (read_toon_empty_field_is_no_field default_max_str_digits
                  id id sample_decode
                  sample_fs "a1.toon") text_a1 doc_a1 Hf Hd).
Defined.

(** C7 as stated, without the restriction to a non-empty field, fails:
    on the document with a mapping under the empty key, the traversal
    of the empty field ends on that mapping, yet [read_toon] with the
    empty field returns the whole document, indented, and not the text
    of the mapping. *)
Lemma read_toon_result_policy_empty_field :
  files sample_fs !! file_of sample_fs "kd.toon" = Some text_empty_key_dict
  /\ sample_decode (pyfloat := string) text_empty_key_dict = Ok doc_empty_key_dict
  /\ walk default_max_str_digits (pyfloat := string)
       doc_empty_key_dict (split_dot EmptyString)
     = Ok (VDict [("b", VScalar (SInt 1))])
  /\ is_container (pyfloat := string) (VDict [("b", VScalar (SInt 1))]) = true
  /\ read_toon default_max_str_digits id id sample_decode
       "kd.toon" (Some EmptyString) sample_fs
     = (Ok ("{" +:+ nl +:+ "  " +:+ dquote +:+ dquote +:+ ": {"
              +:+ nl +:+ "    " +:+ dquote +:+ "b" +:+ dquote +:+ ": 1"
              +:+ nl +:+ "  }" +:+ nl +:+ "}"), sample_fs)
  /\ read_toon default_max_str_digits id id sample_decode
       "kd.toon" (Some EmptyString) sample_fs
     <> (Ok (json_dumps id None (VDict [("b", VScalar (SInt 1))])), sample_fs).
Proof.
  split; [vm_compute; reflexivity | ].
  split; [vm_compute; reflexivity | ].
  split; [reflexivity | ].
  split; [reflexivity | ].
  split; [vm_compute; reflexivity | ].
  vm_compute. discriminate.
Qed.

Lemma read_toon_result_policy_witness :
  files sample_fs !! file_of sample_fs "abc.toon" = Some text_abc
  /\ sample_decode (pyfloat := string) text_abc = Ok doc_abc
  /\ "a" <> EmptyString
  /\ walk default_max_str_digits (pyfloat := string) doc_abc (split_dot "a")
     = Ok (VDict [("b", VScalar (SInt 1)); ("c", VScalar (SInt 2))])
  /\ is_container (pyfloat := string)
       (VDict [("b", VScalar (SInt 1)); ("c", VScalar (SInt 2))]) = true
  /\ read_toon default_max_str_digits id id sample_decode
       "abc.toon" (Some "a") sample_fs
     = (Ok (json_dumps id None
              (VDict [("b", VScalar (SInt 1)); ("c", VScalar (SInt 2))])),
        sample_fs).
Proof.
  assert (Hf : files sample_fs !! file_of sample_fs "abc.toon" = Some text_abc)
    by (vm_compute; reflexivity).
  assert (Hd : sample_decode (pyfloat := string) text_abc = Ok doc_abc)
    by (vm_compute; reflexivity).
  assert (Hne : "a" <> EmptyString) by discriminate.
  assert (Hw : walk default_max_str_digits (pyfloat := string)
                 doc_abc (split_dot "a")
               = Ok (VDict [("b", VScalar (SInt 1)); ("c", VScalar (SInt 2))]))
    by reflexivity.
  assert (Hc : is_container (pyfloat := string)
                 (VDict [("b", VScalar (SInt 1)); ("c", VScalar (SInt 2))]) = true)
    by reflexivity.
  repeat (split; [assumption | ]).
  exact (proj1 (proj1 (read_toon_result_policy default_max_str_digits
                         id id sample_decode
                         sample_fs "abc.toon" text_abc doc_abc Hf Hd)
                  "a" _ Hne Hw) Hc).
Defined.



(** C8 as stated, for every output path that is given, fails: with the
    empty string as output path both conversions return the converted
    text and not the confirmation, and write nothing. *)
Lemma file_operations_effect_counterexample :
  files sample_fs !! file_of sample_fs "a1.json" = Some text_a1_json
  /\ sample_load (pyfloat := string) text_a1_json = Ok doc_a1
  /\ sample_encode id doc_a1 = Ok text_a1
  /\ encode_file (sample_encode id) sample_load
       "a1.json" (Some EmptyString) sample_fs
     = (Ok text_a1, sample_fs)
  /\ fst (encode_file (sample_encode id) sample_load
            "a1.json" (Some EmptyString) sample_fs)
     <> Ok ("Wrote " +:+ EmptyString)
  /\ files sample_fs !! file_of sample_fs "a1.toon" = Some text_a1
  /\ sample_decode (pyfloat := string) text_a1 = Ok doc_a1
  /\ decode_file id sample_decode "a1.toon" (Some EmptyString) sample_fs
     = (Ok (json_dumps id (Some 2) doc_a1), sample_fs)
  /\ fst (decode_file id sample_decode "a1.toon" (Some EmptyString) sample_fs)
     <> Ok ("Wrote " +:+ EmptyString).
Proof.
  split; [vm_compute; reflexivity | ].
  split; [vm_compute; reflexivity | ].
  split; [vm_compute; reflexivity | ].
  split; [vm_compute; reflexivity | ].
  split; [vm_compute; discriminate | ].
  split; [vm_compute; reflexivity | ].
  split; [vm_compute; reflexivity | ].
  split; [vm_compute; reflexivity | ].
  vm_compute. discriminate.
Qed.

Lemma file_operations_effect_witness :
  files sample_fs !! file_of sample_fs "a1.json" = Some text_a1_json
  /\ sample_load (pyfloat := string) text_a1_json = Ok doc_a1
  /\ sample_encode id doc_a1 = Ok text_a1
  /\ files sample_fs !! file_of sample_fs "a1.toon" = Some text_a1
  /\ sample_decode (pyfloat := string) text_a1 = Ok doc_a1
  /\ "out.txt" <> EmptyString
  /\ writable sample_fs "out.txt" = true
  /\ encode_file (sample_encode id) sample_load
       "a1.json" (Some "out.txt") sample_fs
     = (Ok "Wrote out.txt",
        mkFS (file_of sample_fs)
             (<[file_of sample_fs "out.txt" := text_a1]> (files sample_fs))
             (readonly sample_fs))
  /\ encode_file (sample_encode id) sample_load "a1.json" None sample_fs
     = (Ok text_a1, sample_fs)
  /\ decode_file id sample_decode "a1.toon" (Some "out.txt") sample_fs
     = (Ok "Wrote out.txt",
        mkFS (file_of sample_fs)
             (<[file_of sample_fs "out.txt" := json_dumps id (Some 2) doc_a1]>
                (files sample_fs))
             (readonly sample_fs))
  /\ decode_file id sample_decode "a1.toon" None sample_fs
     = (Ok (json_dumps id (Some 2) doc_a1), sample_fs)
  /\ (forall r fs',
        encode_file (sample_encode id) sample_load
          "a1.json" (Some "./out.txt") sample_fs = (r, fs') ->
        files fs' !! file_of sample_fs "a1.json"
        = files sample_fs !! file_of sample_fs "a1.json").
Proof.
  assert (Hf : files sample_fs !! file_of sample_fs "a1.json" = Some text_a1_json)
    by (vm_compute; reflexivity).
  assert (Hl : sample_load (pyfloat := string) text_a1_json = Ok doc_a1)
    by (vm_compute; reflexivity).
  assert (He : sample_encode id doc_a1 = Ok text_a1)
    by (vm_compute; reflexivity).
  assert (Hf' : files sample_fs !! file_of sample_fs "a1.toon" = Some text_a1)
    by (vm_compute; reflexivity).
  assert (Hd : sample_decode (pyfloat := string) text_a1 = Ok doc_a1)
    by (vm_compute; reflexivity).
  assert (Hne : "out.txt" <> EmptyString) by discriminate.
  assert (Hw : writable sample_fs "out.txt" = true)
    by (vm_compute; reflexivity).
  repeat (split; [assumption | ]).
  destruct (file_operations_effect id (sample_encode id) sample_decode
              sample_load sample_fs "a1.json")
    as (Hencode & _ & Hframe).
  destruct (file_operations_effect id (sample_encode id) sample_decode
              sample_load sample_fs "a1.toon")
    as (_ & Hdecode & _).
  destruct (Hencode text_a1_json doc_a1 text_a1 Hf Hl He) as (Hwrite & Hreturn & _).
  destruct (Hdecode text_a1 doc_a1 Hf' Hd) as (Hwrite' & Hreturn' & _).
  split; [exact (Hwrite "out.txt" Hne Hw) | ].
  split; [exact Hreturn | ].
  split; [exact (Hwrite' "out.txt" Hne Hw) | ].
  split; [exact Hreturn' | ].
  intros r fs' Hrun.
  destruct (Hframe (Some "./out.txt") r fs' (or_introl Hrun)) as (_ & _ & Hother & _).
  apply Hother. intros out Hout. inversion Hout; subst. vm_compute. discriminate.
Defined.

(** ** The further properties run on the sample files *)

Lemma missing_input_raises_witness :
  files sample_fs !! file_of sample_fs "nofile.toon" = None
  /\ read_toon default_max_str_digits id id sample_decode
       "nofile.toon" (Some "a") sample_fs
     = (Raise (OpenError "nofile.toon"), sample_fs)
  /\ decode_file id sample_decode "nofile.toon" (Some "out.json") sample_fs
     = (Raise (OpenError "nofile.toon"), sample_fs).
Proof.
  assert (Hf : files sample_fs !! file_of sample_fs "nofile.toon" = None)
    by (vm_compute; reflexivity).
  split; [exact Hf | ].
  destruct (missing_input_raises default_max_str_digits
              id id (sample_encode id) sample_decode
              sample_load sample_fs "nofile.toon" Hf)
    as (_ & Hdecode & Hread).
  split; [exact (Hread (Some "a")) | exact (Hdecode (Some "out.json"))].
Defined.

Lemma malformed_toon_raises_witness :
  files sample_fs_more !! file_of sample_fs_more "bad.toon" = Some text_bad
  /\ sample_decode_more (pyfloat := string) text_bad
     = Raise (ToonError "unknown text")
  /\ decode_file id sample_decode_more "bad.toon" (Some "out.json") sample_fs_more
     = (Raise (ToonError "unknown text"), sample_fs_more)
  /\ get_field default_max_str_digits id id sample_decode_more
       "bad.toon" "a" sample_fs_more
     = (Raise (ToonError "unknown text"), sample_fs_more).
Proof.
  assert (Hf : files sample_fs_more !! file_of sample_fs_more "bad.toon"
               = Some text_bad)
    by (vm_compute; reflexivity).
  assert (Hd : sample_decode_more (pyfloat := string) text_bad
               = Raise (ToonError "unknown text"))
    by (vm_compute; reflexivity).
  repeat (split; [assumption | ]).
  destruct (malformed_toon_raises default_max_str_digits
              id id sample_decode_more
              sample_fs_more "bad.toon" text_bad _ Hf Hd)
    as (Hdecode & _ & Hget).
  split; [exact (Hdecode (Some "out.json")) | exact (Hget "a")].
Defined.

Lemma failed_encode_raises_witness :
  files sample_fs_more !! file_of sample_fs_more "bad.toon" = Some text_bad
  /\ sample_load (pyfloat := string) text_bad
     = Raise (JSONDecodeError "unknown text")
  /\ encode_file (sample_encode id) sample_load
       "bad.toon" (Some "out.toon") sample_fs_more
     = (Raise (JSONDecodeError "unknown text"), sample_fs_more).
Proof.
  assert (Hf : files sample_fs_more !! file_of sample_fs_more "bad.toon"
               = Some text_bad)
    by (vm_compute; reflexivity).
  assert (Hl : sample_load (pyfloat := string) text_bad
               = Raise (JSONDecodeError "unknown text"))
    by (vm_compute; reflexivity).
  repeat (split; [assumption | ]).
  exact (failed_encode_raises (sample_encode id) sample_load
           sample_fs_more "bad.toon" text_bad _ Hf (or_introl Hl)
           (Some "out.toon")).
Defined.

Lemma encode_then_decode_witness :
  files sample_fs !! file_of sample_fs "a1.json" = Some text_a1_json
  /\ sample_load (pyfloat := string) text_a1_json = Ok doc_a1
  /\ sample_encode id doc_a1 = Ok text_a1
  /\ sample_decode (pyfloat := string) text_a1 = Ok doc_a1
  /\ writable sample_fs "out.toon" = true
  /\ exists fs1,
       encode_file (sample_encode id) sample_load
         "a1.json" (Some "out.toon") sample_fs
       = (Ok "Wrote out.toon", fs1)
       /\ decode_file id sample_decode "out.toon" None fs1
          = (Ok (json_dumps id (Some 2) doc_a1), fs1)
       /\ read_toon default_max_str_digits id id sample_decode
            "out.toon" None fs1
          = (Ok (json_dumps id (Some 2) doc_a1), fs1).
Proof.
  assert (Hf : files sample_fs !! file_of sample_fs "a1.json" = Some text_a1_json)
    by (vm_compute; reflexivity).
  assert (Hl : sample_load (pyfloat := string) text_a1_json = Ok doc_a1)
    by (vm_compute; reflexivity).
  assert (He : sample_encode id doc_a1 = Ok text_a1)
    by (vm_compute; reflexivity).
  assert (Hd : sample_decode (pyfloat := string) text_a1 = Ok doc_a1)
    by (vm_compute; reflexivity).
  assert (Hw : writable sample_fs "out.toon" = true)
    by (vm_compute; reflexivity).
  repeat (split; [assumption | ]).
  exact (encode_then_decode default_max_str_digits
           id id (sample_encode id) sample_decode sample_load
           sample_fs "a1.json" "out.toon" text_a1_json doc_a1 text_a1
           Hf Hl He Hd Hw).
Defined.

Lemma conversion_rerun_witness :
  file_of sample_fs "a1.json" <> file_of sample_fs "out.toon"
  /\ encode_file (sample_encode id) sample_load
       "a1.json" (Some "out.toon") sample_fs
     = (Ok "Wrote out.toon",
        mkFS (file_of sample_fs)
             (<[file_of sample_fs "out.toon" := text_a1]> (files sample_fs))
             (readonly sample_fs))
  /\ encode_file (sample_encode id) sample_load
       "a1.json" (Some "out.toon")
       (mkFS (file_of sample_fs)
             (<[file_of sample_fs "out.toon" := text_a1]> (files sample_fs))
             (readonly sample_fs))
     = (Ok "Wrote out.toon",
        mkFS (file_of sample_fs)
             (<[file_of sample_fs "out.toon" := text_a1]> (files sample_fs))
             (readonly sample_fs)).
Proof.
  assert (Hne : file_of sample_fs "a1.json" <> file_of sample_fs "out.toon")
    by (vm_compute; discriminate).
  assert (Hrun : encode_file (sample_encode id) sample_load
                   "a1.json" (Some "out.toon") sample_fs
                 = (Ok "Wrote out.toon",
                    mkFS (file_of sample_fs)
                         (<[file_of sample_fs "out.toon" := text_a1]>
                            (files sample_fs))
                         (readonly sample_fs)))
    by (vm_compute; reflexivity).
  repeat (split; [assumption | ]).
  exact (proj1 (conversion_rerun id (sample_encode id) sample_decode sample_load
                  sample_fs "a1.json" "out.toon" _ _ Hne) Hrun).
Defined.

Lemma read_toon_nested_field_witness :
  files sample_fs_more !! file_of sample_fs_more "abc.toon" = Some text_abc
  /\ sample_decode_more (pyfloat := string) text_abc = Ok doc_abc
  /\ files sample_fs_more !! file_of sample_fs_more "bc.toon" = Some text_bc
  /\ sample_decode_more (pyfloat := string) text_bc = Ok doc_bc
  /\ walk default_max_str_digits (pyfloat := string) doc_abc (split_dot "a")
     = Ok doc_bc
  /\ "c" <> EmptyString
  /\ read_toon default_max_str_digits id id sample_decode_more
       "abc.toon" (Some "a.c") sample_fs_more
     = read_toon default_max_str_digits id id sample_decode_more
         "bc.toon" (Some "c") sample_fs_more.
Proof.
  assert (Hf : files sample_fs_more !! file_of sample_fs_more "abc.toon"
               = Some text_abc)
    by (vm_compute; reflexivity).
  assert (Hd : sample_decode_more (pyfloat := string) text_abc = Ok doc_abc)
    by (vm_compute; reflexivity).
  assert (Hf' : files sample_fs_more !! file_of sample_fs_more "bc.toon"
                = Some text_bc)
    by (vm_compute; reflexivity).
  assert (Hd' : sample_decode_more (pyfloat := string) text_bc = Ok doc_bc)
    by (vm_compute; reflexivity).
  assert (Hw : walk default_max_str_digits (pyfloat := string)
                 doc_abc (split_dot "a") = Ok doc_bc)
    by reflexivity.
  assert (Hne : "c" <> EmptyString) by discriminate.
  repeat (split; [assumption | ]).
  exact (read_toon_nested_field default_max_str_digits
           id id sample_decode_more sample_fs_more
           "abc.toon" text_abc doc_abc "bc.toon" text_bc doc_bc "a" "c"
           Hf Hd Hf' Hd' Hw Hne).
Defined.

Lemma index_leading_zero_witness :
  isdigit "1" = true
  /\ int default_max_str_digits "01" = Ok 1%N
  /\ walk default_max_str_digits (pyfloat := string)
       (VList [VScalar (SStr "x"); VScalar (SStr "y")]) ["01"]
     = walk default_max_str_digits
         (VList [VScalar (SStr "x"); VScalar (SStr "y")]) ["1"].
Proof.
  assert (Hk : isdigit "1" = true) by reflexivity.
  assert (Hn : int default_max_str_digits "01" = Ok 1%N)
    by (vm_compute; reflexivity).
  repeat (split; [assumption | ]).
  exact (index_leading_zero default_max_str_digits (pyfloat := string)
           [VScalar (SStr "x"); VScalar (SStr "y")] "1" 1%N [] Hk Hn).
Defined.

Lemma read_toon_negative_index_witness :
  files sample_fs !! file_of sample_fs "items.toon" = Some text_items
  /\ sample_decode (pyfloat := string) text_items = Ok doc_items
  /\ walk default_max_str_digits (pyfloat := string) doc_items (split_dot "items")
     = Ok (VList [VScalar (SStr "x"); VScalar (SStr "y")])
  /\ read_toon default_max_str_digits id id sample_decode
       "items.toon" (Some "items.-1") sample_fs
     = (Ok EmptyString, sample_fs).
Proof.
  assert (Hf : files sample_fs !! file_of sample_fs "items.toon" = Some text_items)
    by (vm_compute; reflexivity).
  assert (Hd : sample_decode (pyfloat := string) text_items = Ok doc_items)
    by (vm_compute; reflexivity).
  assert (Hw : walk default_max_str_digits (pyfloat := string)
                 doc_items (split_dot "items")
               = Ok (VList [VScalar (SStr "x"); VScalar (SStr "y")]))
    by reflexivity.
  repeat (split; [assumption | ]).
  exact (read_toon_negative_index default_max_str_digits
           id id sample_decode sample_fs
           "items.toon" text_items doc_items "items" _ "1" Hf Hd Hw).
Defined.

Lemma read_toon_dotted_keys_witness :
  files sample_fs_more !! file_of sample_fs_more "dotted.toon"
  = Some text_dotted_key
  /\ sample_decode_more (pyfloat := string) text_dotted_key = Ok doc_dotted_key
  /\ Forall (fun kv : string * value (pyfloat := string) => has_dot (fst kv) = true)
       [("a.b", VScalar (SInt 1))]
  /\ "a.b" <> EmptyString
  /\ read_toon default_max_str_digits id id sample_decode_more
       "dotted.toon" (Some "a.b") sample_fs_more
     = (Ok EmptyString, sample_fs_more).
Proof.
  assert (Hf : files sample_fs_more !! file_of sample_fs_more "dotted.toon"
               = Some text_dotted_key)
    by (vm_compute; reflexivity).
  assert (Hd : sample_decode_more (pyfloat := string) text_dotted_key
               = Ok doc_dotted_key)
    by (vm_compute; reflexivity).
  assert (Hkeys : Forall (fun kv : string * value (pyfloat := string) =>
                            has_dot (fst kv) = true)
                    [("a.b", VScalar (SInt 1))])
    by (constructor; [reflexivity | constructor]).
  assert (Hne : "a.b" <> EmptyString) by discriminate.
  repeat (split; [assumption | ]).
  exact (read_toon_dotted_keys default_max_str_digits
           id id sample_decode_more sample_fs_more
           "dotted.toon" text_dotted_key _ "a.b" Hf Hd Hkeys Hne).
Defined.

Lemma read_toon_exceptions_witness :
  files sample_fs !! file_of sample_fs "items.toon" = Some text_items
  /\ sample_decode (pyfloat := string) text_items = Ok doc_items
  /\ out_of_range default_max_str_digits (pyfloat := string)
       doc_items (split_dot "items.5")
  /\ bad_index default_max_str_digits (pyfloat := string)
       doc_items (split_dot ("items." +:+ superscript_two))
  /\ read_toon default_max_str_digits id id sample_decode
       "items.toon" (Some "items.5") sample_fs
     = (Raise IndexError, sample_fs)
  /\ read_toon default_max_str_digits id id sample_decode
       "items.toon" (Some ("items." +:+ superscript_two)) sample_fs
     = (Raise ValueError, sample_fs).
Proof.
  assert (Hf : files sample_fs !! file_of sample_fs "items.toon" = Some text_items)
    by (vm_compute; reflexivity).
  assert (Hd : sample_decode (pyfloat := string) text_items = Ok doc_items)
    by (vm_compute; reflexivity).
  assert (Hout : out_of_range default_max_str_digits (pyfloat := string)
                   doc_items (split_dot "items.5")).
  { exists [VScalar (SStr "x"); VScalar (SStr "y")], "5", 5%N, [].
    split; [ | split; [reflexivity | split; [reflexivity | vm_compute; discriminate] ] ].
    eapply reaches_key; [reflexivity | ]. apply reaches_here. }
  assert (Hbad : bad_index default_max_str_digits (pyfloat := string)
                   doc_items (split_dot ("items." +:+ superscript_two))).
  { exists [VScalar (SStr "x"); VScalar (SStr "y")], superscript_two, [].
    split; [ | split; reflexivity ].
    eapply reaches_key; [reflexivity | ]. apply reaches_here. }
  repeat (split; [assumption | ]).
  destruct (read_toon_exceptions default_max_str_digits id id sample_decode
              sample_fs "items.toon" text_items doc_items "items.5" Hf Hd)
    as (_ & Hrange & _).
  destruct (read_toon_exceptions default_max_str_digits id id sample_decode
              sample_fs "items.toon" text_items doc_items
              ("items." +:+ superscript_two) Hf Hd)
    as (_ & _ & Hvalue & _).
  split; [exact (Hrange Hout) | exact (Hvalue Hbad)].
Defined.

Lemma main_missing_arguments_witness :
  length ["toon_util.py"; "read"] < 3
  /\ main default_max_str_digits id id (sample_encode id) sample_decode sample_load
       ["toon_util.py"; "read"] sample_fs
     = mkOutcome [module_doc] [] (SystemExit 1) sample_fs
  /\ main default_max_str_digits id id (sample_encode id) sample_decode sample_load
       ["toon_util.py"; "get"; "nofile.toon"] sample_fs
     = mkOutcome [] [get_usage] (SystemExit 1) sample_fs.
Proof.
  assert (Hlen : length ["toon_util.py"; "read"] < 3) by (simpl; lia).
  split; [exact Hlen | ]. split.
  - exact (proj1 (main_missing_arguments default_max_str_digits
                    id id (sample_encode id) sample_decode
                    sample_load ["toon_util.py"; "read"] sample_fs) Hlen).
  - exact (proj2 (main_missing_arguments default_max_str_digits
                    id id (sample_encode id) sample_decode
                    sample_load ["toon_util.py"; "get"; "nofile.toon"] sample_fs)
             "toon_util.py" "nofile.toon" eq_refl).
Defined.


Lemma main_frame_witness :
  (forall out,
      ["toon_util.py"; "encode"; "a1.json"; "./out.toon"] !! 3 = Some out ->
      file_of sample_fs "a1.toon" <> file_of sample_fs out)
  /\ files (final (main default_max_str_digits
                     id id (sample_encode id) sample_decode sample_load
                     ["toon_util.py"; "encode"; "a1.json"; "./out.toon"] sample_fs))
       !! file_of sample_fs "a1.toon"
     = files sample_fs !! file_of sample_fs "a1.toon"
  /\ ["toon_util.py"; "get"; "a1.toon"; "a"] !! 1 <> Some "encode"
  /\ ["toon_util.py"; "get"; "a1.toon"; "a"] !! 1 <> Some "decode"
  /\ final (main default_max_str_digits
              id id (sample_encode id) sample_decode sample_load
              ["toon_util.py"; "get"; "a1.toon"; "a"] sample_fs)
     = sample_fs.
Proof.
  assert (H3 : forall out,
             ["toon_util.py"; "encode"; "a1.json"; "./out.toon"] !! 3 = Some out ->
             file_of sample_fs "a1.toon" <> file_of sample_fs out).
  { intros out Hout. inversion Hout; subst. vm_compute. discriminate. }
  assert (He : ["toon_util.py"; "get"; "a1.toon"; "a"] !! 1 <> Some "encode")
    by discriminate.
  assert (Hd : ["toon_util.py"; "get"; "a1.toon"; "a"] !! 1 <> Some "decode")
    by discriminate.
  split; [exact H3 | ].
  split.
  - exact (proj1 (proj2 (proj2 (main_frame default_max_str_digits
                                  id id (sample_encode id) sample_decode
                                  sample_load
                                  ["toon_util.py"; "encode"; "a1.json"; "./out.toon"]
                                  sample_fs)))
             (file_of sample_fs "a1.toon") H3).
  - split; [exact He | split; [exact Hd | ] ].
    exact (proj2 (proj2 (proj2 (main_frame default_max_str_digits
                                  id id (sample_encode id) sample_decode
                                  sample_load
                                  ["toon_util.py"; "get"; "a1.toon"; "a"]
                                  sample_fs)))
             He Hd).
Defined.

Lemma main_get_prints_string_witness :
  files sample_fs !! file_of sample_fs "style.toon" = Some text_style
  /\ sample_decode (pyfloat := string) text_style = Ok doc_style
  /\ "style.tone" <> EmptyString
  /\ contains default_max_str_digits (pyfloat := string)
       doc_style (split_dot "style.tone") (VScalar (SStr "epic"))
  /\ main default_max_str_digits id id (sample_encode id) sample_decode sample_load
       ["toon_util.py"; "get"; "style.toon"; "style.tone"] sample_fs
     = mkOutcome ["epic"] [] Finished sample_fs.
Proof.
  assert (Hf : files sample_fs !! file_of sample_fs "style.toon" = Some text_style)
    by (vm_compute; reflexivity).
  assert (Hd : sample_decode (pyfloat := string) text_style = Ok doc_style)
    by (vm_compute; reflexivity).
  assert (Hne : "style.tone" <> EmptyString) by discriminate.
  assert (Hc : contains default_max_str_digits (pyfloat := string)
                 doc_style (split_dot "style.tone") (VScalar (SStr "epic"))).
  { eapply reaches_key; [reflexivity | ].
    eapply reaches_key; [reflexivity | ]. apply reaches_here. }
  repeat (split; [assumption | ]).
  exact (proj1 (main_get_prints_string default_max_str_digits
                  id id (sample_encode id) sample_decode
                  sample_load "toon_util.py" "style.toon" "style.tone" []
                  sample_fs text_style doc_style "epic" Hf Hd Hne Hc)).
Defined.

Lemma main_index_error_witness :
  files sample_fs !! file_of sample_fs "items.toon" = Some text_items
  /\ sample_decode (pyfloat := string) text_items = Ok doc_items
  /\ out_of_range default_max_str_digits (pyfloat := string)
       doc_items (split_dot "items.2")
  /\ bad_index default_max_str_digits (pyfloat := string)
       doc_items (split_dot ("items." +:+ superscript_two))
  /\ main default_max_str_digits id id (sample_encode id) sample_decode sample_load
       ["toon_util.py"; "get"; "items.toon"; "items.2"] sample_fs
     = mkOutcome [] [] (Uncaught IndexError) sample_fs
  /\ main default_max_str_digits id id (sample_encode id) sample_decode sample_load
       ["toon_util.py"; "get"; "items.toon"; "items." +:+ superscript_two] sample_fs
     = mkOutcome [] [] (Uncaught ValueError) sample_fs.
Proof.
  assert (Hf : files sample_fs !! file_of sample_fs "items.toon" = Some text_items)
    by (vm_compute; reflexivity).
  assert (Hd : sample_decode (pyfloat := string) text_items = Ok doc_items)
    by (vm_compute; reflexivity).
  assert (Hout : out_of_range default_max_str_digits (pyfloat := string)
                   doc_items (split_dot "items.2")).
  { exists [VScalar (SStr "x"); VScalar (SStr "y")], "2", 2%N, [].
    split; [ | split; [reflexivity | split; [reflexivity | vm_compute; discriminate] ] ].
    eapply reaches_key; [reflexivity | ]. apply reaches_here. }
  assert (Hbad : bad_index default_max_str_digits (pyfloat := string)
                   doc_items (split_dot ("items." +:+ superscript_two))).
  { exists [VScalar (SStr "x"); VScalar (SStr "y")], superscript_two, [].
    split; [ | split; reflexivity ].
    eapply reaches_key; [reflexivity | ]. apply reaches_here. }
  repeat (split; [assumption | ]).
  split.
  - exact (proj1 (proj1 (main_index_error default_max_str_digits
                           id id (sample_encode id) sample_decode
                           sample_load "toon_util.py" "items.toon" "items.2" []
                           sample_fs text_items doc_items Hf Hd) Hout)).
  - exact (proj1 (proj2 (main_index_error default_max_str_digits
                           id id (sample_encode id) sample_decode
                           sample_load "toon_util.py" "items.toon"
                           ("items." +:+ superscript_two) []
                           sample_fs text_items doc_items Hf Hd) Hbad)).
Defined.
